(** * Project Sentinel: the screening client, embedded and verified

  The development follows the browser client of the screening service:

  - [dashboard-ui/src/App.js]: the React entry component ([DashboardApp]);
  - a second, near-duplicate React entry component whose file name is not
    recorded ([LegacyApp]);
  - [dashboard-ui/src/components/SearchResults.jsx] and
    [EntityProfilePage.jsx]: the match list and the detail view
    ([SearchResults], [EntityProfilePage]);
  - [index.html]: the static page with [performScreen] ([IndexHtml]).

  JavaScript values are modelled as the code uses them: strings are
  sequences of UTF-16 code units, optional JSON fields are [jsval]s with
  their truthiness, [async] functions are split at their [await] into the
  part that runs in the event handler and the continuation that runs when
  the promise settles, and React hook state is an explicit record threaded
  through an event-driven step function. *)

From Stdlib Require Import List NArith ZArith Bool Lia String Ascii Arith.
From Stdlib Require Import DecimalString.
Import ListNotations.

Set Implicit Arguments.

(** ** JavaScript strings *)

Module JsString.

(** A JavaScript string is a finite sequence of UTF-16 code units. *)
Definition jsstring := list N.

(** Source literals: every character of an ASCII literal is one code unit. *)
Definition lit (s : string) : jsstring :=
  List.map N_of_ascii (list_ascii_of_string s).

Definition eqb (a b : jsstring) : bool :=
  if list_eq_dec N.eq_dec a b then true else false.

(** ECMAScript [WhiteSpace] and [LineTerminator] code points: what
    [String.prototype.trim] strips. *)
Definition is_ws (c : N) : bool :=
  (N.eqb c 0x09 || N.eqb c 0x0A || N.eqb c 0x0B || N.eqb c 0x0C
   || N.eqb c 0x0D || N.eqb c 0x20 || N.eqb c 0xA0 || N.eqb c 0x1680
   || (N.leb 0x2000 c && N.leb c 0x200A)
   || N.eqb c 0x2028 || N.eqb c 0x2029 || N.eqb c 0x202F
   || N.eqb c 0x205F || N.eqb c 0x3000 || N.eqb c 0xFEFF)%bool.

Fixpoint trimStart (s : jsstring) : jsstring :=
  match s with
  | [] => []
  | c :: s' => if is_ws c then trimStart s' else s
  end.

Definition trimEnd (s : jsstring) : jsstring :=
  rev (trimStart (rev s)).

(** [s.trim()] *)
Definition trim (s : jsstring) : jsstring := trimEnd (trimStart s).

(** [!s] for a string [s]: only the empty string is falsy. *)
Definition is_empty (s : jsstring) : bool :=
  match s with [] => true | _ :: _ => false end.

(** [l.length > 0] *)
Definition nonempty {A : Type} (l : list A) : bool :=
  match l with [] => false | _ :: _ => true end.

(** A string that is empty or made of white space only. *)
Definition blank (s : jsstring) : bool := forallb is_ws s.

(** [parts.join(sep)] *)
Fixpoint join (sep : jsstring) (parts : list jsstring) : jsstring :=
  match parts with
  | [] => []
  | [p] => p
  | p :: rest => p ++ sep ++ join sep rest
  end.

End JsString.
Export JsString.

(** ** JavaScript values of the optional JSON fields *)

Module JsVal.

(** The values an identifier field of a parsed JSON payload can hold
    ([JUndefined] stands for an absent field).  [JNum z] is an
    integer-valued Number of magnitude below 2^53, the range in which
    JavaScript prints a Number as its decimal digits. *)
Inductive jsval : Type :=
| JUndefined
| JNull
| JBool (b : bool)
| JNum (z : Z)
| JStr (s : jsstring).

(** [ToBoolean] *)
Definition truthy (v : jsval) : bool :=
  match v with
  | JUndefined | JNull => false
  | JBool b => b
  | JNum z => negb (Z.eqb z 0)
  | JStr s => negb (is_empty s)
  end.

(** [a || b] *)
Definition or_else (a b : jsval) : jsval := if truthy a then a else b.

(** [ToString], as applied by a template literal. *)
Definition ToString (v : jsval) : jsstring :=
  match v with
  | JUndefined => lit "undefined"
  | JNull => lit "null"
  | JBool true => lit "true"
  | JBool false => lit "false"
  | JNum z => lit (NilZero.string_of_int (Z.to_int z))
  | JStr s => s
  end.

End JsVal.
Export JsVal.

(** ** Payloads of the HTTP/JSON contract *)

Module MatchPayload.

(** One element of [response.data.matches].  The identifier may arrive as
    [entity_id] or as [id]; an absent field reads as [JUndefined]. *)
Record Match : Type := {
  entity_id : jsval;
  id : jsval;
  name : jsstring;
  type_ : jsstring;
  source : jsstring;
  aliases : option (list jsstring)
}.

End MatchPayload.
Abbreviation Match := MatchPayload.Match.

Module EntityPayload.

Record Sanction : Type := {
  program : jsstring;
  sanctioning_body : jsstring
}.

(** The body of [GET /v1/entity/{identifier}]. *)
Record EntityProfile : Type := {
  id : jsstring;
  name : jsstring;
  category : jsstring;
  source : jsstring;
  aliases : option (list jsstring);
  sanctions : option (list Sanction)
}.

End EntityPayload.
Abbreviation EntityProfile := EntityPayload.EntityProfile.

(** The body of a [POST /v1/screen] response; [matches] is [None] when the
    field is missing or [null]. *)
Record ScreenData : Type := {
  total_matches : Z;
  matches : option (list Match)
}.

(** ** Transport: requests and how they settle *)

Module Transport.

Inductive Method : Type := GET | POST.

(** A request as handed to [axios] or [fetch]: [body] is the value of the
    [entity_name] field of the JSON body, when there is one. *)
Record Request : Type := {
  method : Method;
  url : jsstring;
  entity_name : option jsstring
}.

(** What comes back for one request. *)
Inductive Outcome (A : Type) : Type :=
| NetworkFailure
| HttpResponse (status : nat) (data : A).
Arguments NetworkFailure {A}.

(** [response.ok] of [fetch], and the default [validateStatus] of [axios]. *)
Definition ok (status : nat) : bool :=
  (200 <=? status)%nat && (status <? 300)%nat.

(** The promise of [axios.get]/[axios.post]: [Some data] when it resolves,
    [None] when it rejects (network failure or a status outside 2xx). *)
Definition axios_await {A : Type} (o : Outcome A) : option A :=
  match o with
  | NetworkFailure => None
  | HttpResponse status data => if ok status then Some data else None
  end.

(** [process.env.NODE_ENV], [None] when unset. *)
Definition Env := option jsstring.

Definition PRODUCTION_URL : jsstring :=
  lit "https://project-sentinel-2.onrender.com".

Definition LOCAL_URL : jsstring := lit "http://localhost:8000".

(** [const API_BASE_URL = process.env.NODE_ENV === 'production' ? ... : ...]
    (the same constant in [App.js] and in [SearchResults.jsx]). *)
Definition API_BASE_URL (NODE_ENV : Env) : jsstring :=
  match NODE_ENV with
  | Some e => if JsString.eqb e (lit "production")
              then PRODUCTION_URL else LOCAL_URL
  | None => LOCAL_URL
  end.

End Transport.
Export Transport.

(** ** [EntityProfilePage.jsx] *)

Module EntityProfilePage.

Inductive Section_ : Type :=
| Items (l : list jsstring)
| Placeholder (text : jsstring).

Inductive View : Type :=
| LoadingDiv
| Profile (title category source : jsstring) (aliases sanctions : Section_).

(** [entity.aliases && entity.aliases.length > 0] and its two branches. *)
Definition list_or (l : option (list jsstring)) (text : jsstring) : Section_ :=
  match l with
  | Some (x :: l') => Items (x :: l')
  | Some [] | None => Placeholder text
  end.

Definition sanction_line (s : EntityPayload.Sanction) : jsstring :=
  EntityPayload.program s ++ lit " - " ++ EntityPayload.sanctioning_body s.

Definition EntityProfilePage (entity : option EntityProfile) : View :=
  match entity with
  | None => LoadingDiv
  | Some e =>
      Profile (EntityPayload.name e) (EntityPayload.category e)
        (EntityPayload.source e)
        (list_or (EntityPayload.aliases e) (lit "No known aliases."))
        (list_or (option_map (List.map sanction_line) (EntityPayload.sanctions e))
           (lit "No sanctions details available."))
  end.

End EntityProfilePage.

(** ** [SearchResults.jsx] *)

Module SearchResults.

(** The three [React.useState] cells of the component. *)
Record State : Type := {
  selectedEntity : option EntityProfile;
  loading : bool;
  error : option jsstring
}.

Definition init : State :=
  {| selectedEntity := None; loading := false; error := None |}.

(** The [results] prop. *)
Inductive ResultsProp : Type :=
| ResultsUndefined
| ResultsNull
| ResultsArray (l : list Match).

(** [result.entity_id || result.id] *)
Definition identifier (result : Match) : jsval :=
  or_else (MatchPayload.entity_id result) (MatchPayload.id result).

(** [handleResultClick] up to its [await]: the two setters and the request. *)
Definition handleResultClick (NODE_ENV : Env) (entityId : jsval) (st : State)
  : State * Request :=
  ({| selectedEntity := selectedEntity st; loading := true; error := None |},
   {| method := GET;
      url := API_BASE_URL NODE_ENV ++ lit "/v1/entity/" ++ ToString entityId;
      entity_name := None |}).

(** [handleResultClick] after its [await]: [try] or [catch], then [finally]. *)
Definition handleResultClick_settled (o : Outcome EntityProfile) (st : State)
  : State :=
  match axios_await o with
  | Some data =>
      {| selectedEntity := Some data; loading := false; error := error st |}
  | None =>
      {| selectedEntity := selectedEntity st; loading := false;
         error := Some (lit "Failed to fetch entity details") |}
  end.

Record Card : Type := {
  key : jsval;
  onClick : jsval;        (* the argument passed to [handleResultClick] *)
  card_name : jsstring;
  card_source : jsstring;
  card_type : jsstring
}.

Record View : Type := {
  heading : jsstring;
  cards : list Card;
  loading_details : bool;                      (* [Loading details...] *)
  error_text : option jsstring;
  profile : option EntityProfilePage.View
}.

Definition card (result : Match) : Card :=
  {| key := identifier result;
     onClick := identifier result;
     card_name := MatchPayload.name result;
     card_source := MatchPayload.source result;
     card_type := MatchPayload.type_ result |}.

(** [error && <p>...] for a cell holding [null] or a string. *)
Definition shown (e : option jsstring) : option jsstring :=
  match e with
  | Some s => if is_empty s then None else Some s
  | None => None
  end.

(** The component's return value; [None] is [return null]. *)
Definition SearchResults (results : ResultsProp) (st : State) : option View :=
  match results with
  | ResultsUndefined | ResultsNull | ResultsArray [] => None
  | ResultsArray l =>
      Some {| heading := lit "Results";
              cards := List.map card l;
              loading_details := loading st;
              error_text := shown (error st);
              profile :=
                match selectedEntity st with
                | Some e => Some (EntityProfilePage.EntityProfilePage (Some e))
                | None => None
                end |}
  end.

End SearchResults.

(** ** The React entry components *)

Module Entry.

(** What an entry component returns from its render. *)
Record View : Type := {
  input_value : jsstring;
  button_disabled : bool;
  button_label : jsstring;
  loading_text : option jsstring;
  error_message : option jsstring;
  no_matches : bool;                 (* [No matches found for your query.] *)
  search_results : option (list Match)
    (* the [results] prop of [<SearchResults>], when the element is rendered *)
}.

(** A render either returns its elements or throws (a [TypeError]). *)
Inductive Rendered : Type :=
| Throws
| Renders (v : View).

(** The interface the two [App] functions share: hook state, the input's
    [onChange], [handleSearch] split at its [await], and the render. *)
Record Component : Type := {
  State : Type;
  init : State;
  onChange : jsstring -> State -> State;
  handleSearch : Env -> State -> option (State * Request);
  handleSearch_settled : Outcome ScreenData -> State -> State;
  App : State -> Rendered
}.

End Entry.

(** *** [dashboard-ui/src/App.js] *)

Module DashboardApp.

Record State : Type := {
  searchTerm : jsstring;
  results : list Match;
  loading : bool;
  error : jsstring;
  searched : bool
}.

Definition init : State :=
  {| searchTerm := []; results := []; loading := false; error := [];
     searched := false |}.

Definition setSearchTerm (s : jsstring) (st : State) : State :=
  {| searchTerm := s; results := results st; loading := loading st;
     error := error st; searched := searched st |}.

Definition SEARCH_FAILED : jsstring :=
  lit "Search failed. Please check the connection and try again.".

(** [handleSearch] up to its [await]; [None] is the early [return]. *)
Definition handleSearch (NODE_ENV : Env) (st : State)
  : option (State * Request) :=
  if is_empty (trim (searchTerm st)) then None
  else Some
    ({| searchTerm := searchTerm st; results := []; loading := true;
        error := []; searched := true |},
     {| method := POST;
        url := API_BASE_URL NODE_ENV ++ lit "/v1/screen";
        entity_name := Some (searchTerm st) |}).

(** [response.data.matches || []] *)
Definition matches_or_empty (data : ScreenData) : list Match :=
  match matches data with
  | Some l => l
  | None => []
  end.

(** [handleSearch] after its [await]. *)
Definition handleSearch_settled (o : Outcome ScreenData) (st : State)
  : State :=
  match axios_await o with
  | Some data =>
      {| searchTerm := searchTerm st; results := matches_or_empty data;
         loading := false; error := error st; searched := searched st |}
  | None =>
      {| searchTerm := searchTerm st; results := results st;
         loading := false; error := SEARCH_FAILED; searched := searched st |}
  end.

Definition App (st : State) : Entry.Rendered :=
  Entry.Renders
    {| Entry.input_value := searchTerm st;
       Entry.button_disabled := loading st;
       Entry.button_label :=
         if loading st then lit "Scanning..." else lit "Scan";
       Entry.loading_text :=
         if loading st then Some (lit "Loading...") else None;
       Entry.error_message :=
         if is_empty (error st) then None else Some (error st);
       Entry.no_matches :=
         negb (loading st) && is_empty (error st) && searched st
         && negb (nonempty (results st));
       Entry.search_results :=
         if negb (loading st) && is_empty (error st) && nonempty (results st)
         then Some (results st) else None |}.

Definition component : Entry.Component :=
  {| Entry.State := State;
     Entry.init := init;
     Entry.onChange := setSearchTerm;
     Entry.handleSearch := handleSearch;
     Entry.handleSearch_settled := handleSearch_settled;
     Entry.App := App |}.

End DashboardApp.

(** *** The second entry component (file name not recorded) *)

Module LegacyApp.

(** [results] is [None] once [setResults] has stored [undefined] or [null]. *)
Record State : Type := {
  query : jsstring;
  results : option (list Match);
  searched : bool;
  loading : bool;
  error : option jsstring
}.

Definition init : State :=
  {| query := []; results := Some []; searched := false; loading := false;
     error := None |}.

Definition setQuery (s : jsstring) (st : State) : State :=
  {| query := s; results := results st; searched := searched st;
     loading := loading st; error := error st |}.

(** [handleSearch] up to its [await]. *)
Definition handleSearch (NODE_ENV : Env) (st : State)
  : option (State * Request) :=
  if is_empty (trim (query st)) then None
  else Some
    ({| query := query st; results := results st; searched := searched st;
        loading := true; error := None |},
     {| method := POST;
        url := lit "http://localhost:8000/v1/screen";
        entity_name := Some (query st) |}).

(** [handleSearch] after its [await]. *)
Definition handleSearch_settled (o : Outcome ScreenData) (st : State)
  : State :=
  match axios_await o with
  | Some data =>
      {| query := query st; results := matches data; searched := true;
         loading := false; error := error st |}
  | None =>
      {| query := query st; results := results st; searched := searched st;
         loading := false; error := Some (lit "Search failed") |}
  end.

(** The render reads [results.length], which throws on [undefined]/[null]. *)
Definition App (st : State) : Entry.Rendered :=
  match results st with
  | None => Entry.Throws
  | Some l =>
      Entry.Renders
        {| Entry.input_value := query st;
           Entry.button_disabled := false;
           Entry.button_label := lit "Scan";
           Entry.loading_text :=
             if loading st then Some (lit "Scanning...") else None;
           Entry.error_message := SearchResults.shown (error st);
           Entry.no_matches :=
             searched st && negb (loading st)
             && negb (nonempty l);
           Entry.search_results :=
             if nonempty l then Some l else None |}
  end.

Definition component : Entry.Component :=
  {| Entry.State := State;
     Entry.init := init;
     Entry.onChange := setQuery;
     Entry.handleSearch := handleSearch;
     Entry.handleSearch_settled := handleSearch_settled;
     Entry.App := App |}.

End LegacyApp.

(** ** The page at run time: events, pending promises, mounted components *)

Module Runtime.

Inductive Event : Type :=
| Change (value : jsstring)          (* typing into the input *)
| Key (key : jsstring)               (* a key event on the input *)
| ClickScan                          (* a click on the Scan button *)
| ClickCard (n : nat)                (* a click on the n-th result card *)
| ScreenSettled (rid : nat) (o : Outcome ScreenData)
| DetailSettled (rid : nat) (o : Outcome EntityProfile).

Definition is_click (e : Event) : bool :=
  match e with
  | ClickCard _ => true
  | _ => false
  end.

(** The events that call [handleSearch] in both entry components. *)
Definition submits (e : Event) : bool :=
  match e with
  | Key key => JsString.eqb key (lit "Enter")
  | ClickScan => true
  | _ => false
  end.

Section WithComponent.

Variable C : Entry.Component.
Variable NODE_ENV : Env.

(** The entry component's hook state, the mounted [SearchResults] instance
    (its instance number and hook state; React keeps the state for as long as
    consecutive renders return the element, and drops it otherwise), the
    promises still pending, and every request sent so far, oldest first. *)
Record World : Type := {
  alive : bool;                       (* [false] once a render has thrown *)
  app : Entry.State C;
  child : option (nat * SearchResults.State);
  next_instance : nat;
  next_request : nat;
  pending_screen : list nat;
  pending_detail : list (nat * nat);  (* request, owning instance *)
  sent : list (nat * Request)
}.

Definition with_app (st : Entry.State C) (w : World) : World :=
  {| alive := alive w; app := st; child := child w;
     next_instance := next_instance w; next_request := next_request w;
     pending_screen := pending_screen w; pending_detail := pending_detail w;
     sent := sent w |}.

Definition with_child (c : option (nat * SearchResults.State)) (w : World)
  : World :=
  {| alive := alive w; app := app w; child := c;
     next_instance := next_instance w; next_request := next_request w;
     pending_screen := pending_screen w; pending_detail := pending_detail w;
     sent := sent w |}.

(** Re-render and reconcile the child.  The setters called by one handler,
    or by one continuation, are applied together and followed by one render,
    as React does when it batches them. *)
Definition commit (w : World) : World :=
  match Entry.App C (app w) with
  | Entry.Throws =>
      {| alive := false; app := app w; child := None;
         next_instance := next_instance w; next_request := next_request w;
         pending_screen := pending_screen w;
         pending_detail := pending_detail w; sent := sent w |}
  | Entry.Renders v =>
      match Entry.search_results v, child w with
      | Some _, Some _ => w
      | Some _, None =>
          {| alive := alive w; app := app w;
             child := Some (next_instance w, SearchResults.init);
             next_instance := S (next_instance w);
             next_request := next_request w;
             pending_screen := pending_screen w;
             pending_detail := pending_detail w; sent := sent w |}
      | None, _ => with_child None w
      end
  end.

Definition start : World :=
  commit {| alive := true; app := Entry.init C; child := None;
            next_instance := 0; next_request := 0; pending_screen := [];
            pending_detail := []; sent := [] |}.

(** The last render of the entry component. *)
Definition view (w : World) : option Entry.View :=
  if alive w then
    match Entry.App C (app w) with
    | Entry.Renders v => Some v
    | Entry.Throws => None
    end
  else None.

(** The [results] prop and hook state of the mounted [SearchResults]. *)
Definition mounted (w : World) : option (nat * list Match * SearchResults.State) :=
  match view w, child w with
  | Some v, Some (inst, dst) =>
      match Entry.search_results v with
      | Some l => Some (inst, l, dst)
      | None => None
      end
  | _, _ => None
  end.

(** What the mounted [SearchResults] renders. *)
Definition results_section (w : World) : option SearchResults.View :=
  match mounted w with
  | Some (_, l, dst) =>
      SearchResults.SearchResults (SearchResults.ResultsArray l) dst
  | None => None
  end.

(** A call of [handleSearch]. *)
Definition submit (w : World) : World :=
  match Entry.handleSearch C NODE_ENV (app w) with
  | None => w
  | Some (st, req) =>
      commit
        {| alive := alive w; app := st; child := child w;
           next_instance := next_instance w;
           next_request := S (next_request w);
           pending_screen := next_request w :: pending_screen w;
           pending_detail := pending_detail w;
           sent := sent w ++ [(next_request w, req)] |}
  end.

(** A click on the n-th card: its [onClick] calls [handleResultClick]. *)
Definition select (n : nat) (w : World) : World :=
  match mounted w, results_section w with
  | Some (inst, _, dst), Some sv =>
      match nth_error (SearchResults.cards sv) n with
      | Some c =>
          let '(dst', req) :=
            SearchResults.handleResultClick NODE_ENV (SearchResults.onClick c)
              dst in
          {| alive := alive w; app := app w; child := Some (inst, dst');
             next_instance := next_instance w;
             next_request := S (next_request w);
             pending_screen := pending_screen w;
             pending_detail := (next_request w, inst) :: pending_detail w;
             sent := sent w ++ [(next_request w, req)] |}
      | None => w
      end
  | _, _ => w
  end.

Definition remove_nat (n : nat) (l : list nat) : list nat :=
  filter (fun m => negb (Nat.eqb m n)) l.

Definition remove_key (n : nat) (l : list (nat * nat)) : list (nat * nat) :=
  filter (fun p => negb (Nat.eqb (fst p) n)) l.

Definition owner_of (rid : nat) (l : list (nat * nat)) : option nat :=
  option_map snd (find (fun p => Nat.eqb (fst p) rid) l).

(** The continuation of [handleSearch] for request [rid]. *)
Definition screen_settled (rid : nat) (o : Outcome ScreenData) (w : World)
  : World :=
  if existsb (Nat.eqb rid) (pending_screen w) then
    commit
      {| alive := alive w;
         app := Entry.handleSearch_settled C o (app w);
         child := child w;
         next_instance := next_instance w; next_request := next_request w;
         pending_screen := remove_nat rid (pending_screen w);
         pending_detail := pending_detail w; sent := sent w |}
  else w.

(** The continuation of [handleResultClick] for request [rid]: its setters
    act on the instance that issued the request and do nothing once that
    instance is unmounted. *)
Definition detail_settled (rid : nat) (o : Outcome EntityProfile) (w : World)
  : World :=
  match owner_of rid (pending_detail w) with
  | None => w
  | Some owner =>
      {| alive := alive w; app := app w;
         child :=
           match child w with
           | Some (inst, dst) =>
               if Nat.eqb inst owner
               then Some (inst, SearchResults.handleResultClick_settled o dst)
               else Some (inst, dst)
           | None => None
           end;
         next_instance := next_instance w; next_request := next_request w;
         pending_screen := pending_screen w;
         pending_detail := remove_key rid (pending_detail w);
         sent := sent w |}
  end.

Definition step (w : World) (e : Event) : World :=
  if alive w then
    match e with
    | Change value => commit (with_app (Entry.onChange C value (app w)) w)
    | Key key =>
        if JsString.eqb key (lit "Enter") then submit w else w
    | ClickScan =>
        match view w with
        | Some v => if Entry.button_disabled v then w else submit w
        | None => w
        end
    | ClickCard n => select n w
    | ScreenSettled rid o => screen_settled rid o w
    | DetailSettled rid o => detail_settled rid o w
    end
  else w.

Definition run (w : World) (es : list Event) : World := fold_left step es w.

(** What the page shows: the match list handed to [SearchResults], the
    error line of the entry component, and the profile held by the mounted
    [SearchResults]. *)
Definition displayed_matches (w : World) : option (list Match) :=
  match view w with
  | Some v => Entry.search_results v
  | None => None
  end.

Definition displayed_error (w : World) : option jsstring :=
  match view w with
  | Some v => Entry.error_message v
  | None => None
  end.

Definition held_profile (w : World) : option EntityProfile :=
  match child w with
  | Some (_, dst) => SearchResults.selectedEntity dst
  | None => None
  end.

(** Instance numbers are handed out in order: every pending detail request
    and the mounted child belong to an instance already created. *)
Definition owners_known (w : World) : Prop :=
  (forall r o, In (r, o) (pending_detail w) -> o < next_instance w) /\
  (forall i d, child w = Some (i, d) -> i < next_instance w).

(** The mounted child, if any, holds no profile and awaits no response. *)
Definition unselected (w : World) : Prop :=
  forall i d, child w = Some (i, d) ->
    SearchResults.selectedEntity d = None /\
    forall r, ~ In (r, i) (pending_detail w).

End WithComponent.

End Runtime.

(** The two pages. *)
Abbreviation DWorld := (Runtime.World DashboardApp.component).
Abbreviation LWorld := (Runtime.World LegacyApp.component).

(** ** [index.html]: [performScreen] *)

Module IndexHtml.

(** One card appended to the results [div]; the fields are the values
    interpolated into the card's markup. *)
Record Card : Type := {
  title : jsstring;
  category_text : jsstring;
  source_text : jsstring;
  aliases_text : jsstring
}.

(** The content of [<div id="results">]. *)
Inductive ResultsDiv : Type :=
| Untouched                 (* the markup of the static page *)
| LoadingText               (* [Loading...] *)
| NoMatchesText             (* [No matches found.] *)
| ErrorText                 (* [An error occurred while screening. ...] *)
| Cards (l : list Card).

Record Page : Type := {
  entity_name_value : jsstring;      (* the value of the input *)
  resultsDiv : ResultsDiv;
  alerts : list jsstring             (* the [alert] calls so far *)
}.

Definition PLEASE_ENTER : jsstring :=
  lit "Please enter an entity name to screen.".

(** [performScreen] up to its first [await]. *)
Definition performScreen (p : Page) : Page * option Request :=
  let entityName := trim (entity_name_value p) in
  if is_empty entityName then
    ({| entity_name_value := entity_name_value p;
        resultsDiv := resultsDiv p;
        alerts := alerts p ++ [PLEASE_ENTER] |}, None)
  else
    ({| entity_name_value := entity_name_value p;
        resultsDiv := LoadingText;
        alerts := alerts p |},
     Some {| method := POST;
             url := lit "/v1/screen";
             entity_name := Some entityName |}).

(** [match.aliases.join(', ') || 'None']; [None] when [aliases] is missing
    and the call throws. *)
Definition aliases_line (m : Match) : option jsstring :=
  match MatchPayload.aliases m with
  | Some l =>
      let joined := join (lit ", ") l in
      Some (if is_empty joined then lit "None" else joined)
  | None => None
  end.

Definition card (m : Match) : option Card :=
  match aliases_line m with
  | Some a =>
      Some {| title := MatchPayload.name m;
              category_text := MatchPayload.type_ m;
              source_text := MatchPayload.source m;
              aliases_text := a |}
  | None => None
  end.

(** The [forEach] loop; [None] when an iteration throws. *)
Fixpoint cards (ms : list Match) : option (list Card) :=
  match ms with
  | [] => Some []
  | m :: ms' =>
      match card m with
      | Some c =>
          match cards ms' with
          | Some cs => Some (c :: cs)
          | None => None
          end
      | None => None
      end
  end.

Definition with_results (d : ResultsDiv) (p : Page) : Page :=
  {| entity_name_value := entity_name_value p;
     resultsDiv := d;
     alerts := alerts p |}.

(** [performScreen] once [fetch] has settled: the rest of the [try] block,
    or the [catch] block. *)
Definition performScreen_settled (o : Outcome ScreenData) (p : Page) : Page :=
  match o with
  | NetworkFailure => with_results ErrorText p
  | HttpResponse status data =>
      if negb (ok status) then with_results ErrorText p
      else if Z.eqb (total_matches data) 0 then with_results NoMatchesText p
      else
        match matches data with
        | None => with_results ErrorText p
        | Some ms =>
            match cards ms with
            | Some cs => with_results (Cards cs) p
            | None => with_results ErrorText p
            end
        end
  end.

End IndexHtml.

(** ** Sample data *)

Module Samples.

Definition acme : Match :=
  {| MatchPayload.entity_id := JUndefined;
     MatchPayload.id := JStr (lit "E1");
     MatchPayload.name := lit "Acme Corp";
     MatchPayload.type_ := lit "Company";
     MatchPayload.source := lit "OFAC";
     MatchPayload.aliases := Some [] |}.

Definition beta : Match :=
  {| MatchPayload.entity_id := JStr (lit "E2");
     MatchPayload.id := JUndefined;
     MatchPayload.name := lit "Beta Ltd";
     MatchPayload.type_ := lit "Company";
     MatchPayload.source := lit "EU";
     MatchPayload.aliases := Some [lit "Beta"; lit "B Ltd"] |}.

(** A match whose only identifier field, [entity_id], is the empty string. *)
Definition unnamed_entity : Match :=
  {| MatchPayload.entity_id := JStr [];
     MatchPayload.id := JUndefined;
     MatchPayload.name := lit "Gamma";
     MatchPayload.type_ := lit "Person";
     MatchPayload.source := lit "UN";
     MatchPayload.aliases := Some [] |}.

(** The same identifier, carried by [id]. *)
Definition unnamed_entity_by_id : Match :=
  {| MatchPayload.entity_id := JUndefined;
     MatchPayload.id := JStr [];
     MatchPayload.name := lit "Gamma";
     MatchPayload.type_ := lit "Person";
     MatchPayload.source := lit "UN";
     MatchPayload.aliases := Some [] |}.

Definition acme_profile : EntityProfile :=
  {| EntityPayload.id := lit "E1";
     EntityPayload.name := lit "Acme Corp";
     EntityPayload.category := lit "Company";
     EntityPayload.source := lit "OFAC";
     EntityPayload.aliases := Some [];
     EntityPayload.sanctions :=
       Some [ {| EntityPayload.program := lit "SDN";
                 EntityPayload.sanctioning_body := lit "OFAC" |} ] |}.

Definition acme_data : ScreenData :=
  {| total_matches := 1; matches := Some [acme] |}.

Definition beta_data : ScreenData :=
  {| total_matches := 1; matches := Some [beta] |}.

Definition production : Env := Some (lit "production").

Definition Enter : Runtime.Event := Runtime.Key (lit "Enter").

Definition ok200 {A : Type} (data : A) : Outcome A := HttpResponse 200 data.

(** A match with an empty [entity_id] and its identifier under [id]. *)
Definition delta : Match :=
  {| MatchPayload.entity_id := JStr [];
     MatchPayload.id := JStr (lit "E9");
     MatchPayload.name := lit "Delta";
     MatchPayload.type_ := lit "Company";
     MatchPayload.source := lit "UN";
     MatchPayload.aliases := None |}.

(** Two searches in flight at once in [App.js]; the first one's response
    arrives last. *)
Definition overtaken : Runtime.World DashboardApp.component :=
  Runtime.run None (Runtime.start DashboardApp.component)
    [Runtime.Change (lit "Acme"); Enter;
     Runtime.Change (lit "Beta"); Enter;
     Runtime.ScreenSettled 1 (ok200 beta_data);
     Runtime.ScreenSettled 0 (ok200 acme_data)].

(** A search, a selection whose profile loads, then a second search. *)
Definition second_search : list Runtime.Event :=
  [Runtime.Change (lit "Acme"); Enter;
   Runtime.ScreenSettled 0 (ok200 acme_data);
   Runtime.ClickCard 0;
   Runtime.DetailSettled 1 (ok200 acme_profile);
   Runtime.Change (lit "Beta"); Enter;
   Runtime.ScreenSettled 2 (ok200 beta_data)].

(** A successful search followed by one that the backend answers with 500. *)
Definition failed_second_search : list Runtime.Event :=
  [Runtime.Change (lit "Acme"); Enter;
   Runtime.ScreenSettled 0 (ok200 acme_data);
   Runtime.Change (lit "Beta"); Enter;
   Runtime.ScreenSettled 1 (HttpResponse 500 beta_data)].

(** One search and one selection. *)
Definition search_and_select : list Runtime.Event :=
  [Runtime.Change (lit "Acme"); Enter;
   Runtime.ScreenSettled 0 (ok200 acme_data);
   Runtime.ClickCard 0].

End Samples.

(** ** Observations used by the further properties *)

Module Observe.

(** How many of the four parts of the results area of an entry component
    are rendered: the loading line, the error line, the no-matches line and
    the [<SearchResults>] element. *)
Definition count_if {A : Type} (o : option A) : nat :=
  match o with Some _ => 1 | None => 0 end.

Definition shown_sections (v : Entry.View) : nat :=
  count_if (Entry.loading_text v)
  + count_if (Entry.error_message v)
  + (if Entry.no_matches v then 1 else 0)
  + count_if (Entry.search_results v).

(** A page whose mounted child already agrees with its last render. *)
Definition settled {C : Entry.Component} (w : Runtime.World C) : Prop :=
  Runtime.commit w = w.

(** The page an event list leads to. *)
Definition reached (C : Entry.Component) (NODE_ENV : Env)
           (es : list Runtime.Event) : Runtime.World C :=
  Runtime.run NODE_ENV (Runtime.start C) es.

Definition beta_profile : EntityProfile :=
  {| EntityPayload.id := lit "E2";
     EntityPayload.name := lit "Beta Ltd";
     EntityPayload.category := lit "Company";
     EntityPayload.source := lit "EU";
     EntityPayload.aliases := Some [lit "Beta"; lit "B Ltd"];
     EntityPayload.sanctions := None |}.

(** A response with two matches. *)
Definition both_data : ScreenData :=
  {| total_matches := 2; matches := Some [Samples.acme; Samples.beta] |}.

(** A success response without the [matches] field. *)
Definition bare_data : ScreenData :=
  {| total_matches := 0; matches := None |}.

(** A match without the [aliases] field. *)
Definition no_aliases : Match :=
  {| MatchPayload.entity_id := JUndefined;
     MatchPayload.id := JStr (lit "E3");
     MatchPayload.name := lit "Epsilon";
     MatchPayload.type_ := lit "Vessel";
     MatchPayload.source := lit "UN";
     MatchPayload.aliases := None |}.

(** One search whose response has arrived. *)
Definition searched_once : list Runtime.Event :=
  [Runtime.Change (lit "Acme"); Samples.Enter;
   Runtime.ScreenSettled 0 (Samples.ok200 Samples.acme_data)].

(** One search with two matches, its response arrived. *)
Definition searched_both : list Runtime.Event :=
  [Runtime.Change (lit "Corp"); Samples.Enter;
   Runtime.ScreenSettled 0 (Samples.ok200 both_data)].

(** A search, then a selection whose profile has loaded. *)
Definition profile_loaded : list Runtime.Event :=
  [Runtime.Change (lit "Acme"); Samples.Enter;
   Runtime.ScreenSettled 0 (Samples.ok200 Samples.acme_data);
   Runtime.ClickCard 0;
   Runtime.DetailSettled 1 (Samples.ok200 Samples.acme_profile);
   Runtime.Change (lit "Beta")].

(** A query typed and submitted, its response still pending. *)
Definition in_flight : list Runtime.Event :=
  [Runtime.Change (lit "Acme"); Samples.Enter].

Definition acme_page : IndexHtml.Page :=
  {| IndexHtml.entity_name_value := lit "  Acme ";
     IndexHtml.resultsDiv := IndexHtml.Untouched;
     IndexHtml.alerts := [] |}.

End Observe.

(** * Properties *)

Unset Implicit Arguments.

(** ** Strings: what [trim] leaves *)

Lemma trimStart_blank (s : jsstring) :
  blank s = true -> trimStart s = [].
Proof.
  induction s as [|c s IH]; simpl; [reflexivity|].
  intros H. apply andb_true_iff in H as [Hc Hs].
  rewrite Hc. auto.
Qed.

Lemma trimStart_nil_blank (s : jsstring) :
  trimStart s = [] -> blank s = true.
Proof.
  induction s as [|c s IH]; simpl; [reflexivity|].
  destruct (is_ws c); [auto | discriminate].
Qed.

Lemma blank_app (s t : jsstring) :
  blank (s ++ t) = blank s && blank t.
Proof. apply forallb_app. Qed.

Lemma blank_rev (s : jsstring) : blank (rev s) = blank s.
Proof.
  induction s as [|c s IH]; simpl; [reflexivity|].
  rewrite blank_app, IH. simpl. rewrite andb_true_r. apply andb_comm.
Qed.

Lemma trimStart_fixed (s : jsstring) :
  blank (trimStart s) = true -> blank s = true.
Proof.
  induction s as [|c s IH]; simpl; [reflexivity|].
  destruct (is_ws c) eqn:Hc; simpl; [auto|].
  rewrite Hc. discriminate.
Qed.

(** The guard of every submit path, [!s.trim()], holds exactly for the
    strings that are empty or white space only. *)
Lemma trim_empty_iff_blank (s : jsstring) :
  is_empty (trim s) = true <-> blank s = true.
Proof.
  unfold trim, trimEnd. split.
  - intros H.
    destruct (rev (trimStart (rev (trimStart s)))) as [|c r] eqn:E;
      [|discriminate].
    apply (f_equal (@rev N)) in E. rewrite rev_involutive in E. simpl in E.
    apply trimStart_nil_blank in E. rewrite blank_rev in E.
    now apply trimStart_fixed.
  - intros H. now rewrite (trimStart_blank s H).
Qed.

Lemma trim_nonempty_iff_not_blank (s : jsstring) :
  is_empty (trim s) = false <-> blank s = false.
Proof.
  pose proof (trim_empty_iff_blank s) as [H1 H2].
  destruct (is_empty (trim s)), (blank s); split; intros; auto;
    try discriminate.
  - now rewrite H1.
  - now rewrite H2.
Qed.

Lemma eqb_refl (s : jsstring) : JsString.eqb s s = true.
Proof.
  unfold JsString.eqb. now destruct (list_eq_dec N.eq_dec s s).
Qed.

Lemma eqb_eq (a b : jsstring) : JsString.eqb a b = true <-> a = b.
Proof.
  unfold JsString.eqb. destruct (list_eq_dec N.eq_dec a b); split;
    intros; auto; try discriminate; contradiction.
Qed.

Example trim_acme : trim (lit "  Acme Corp ") = lit "Acme Corp".
Proof. reflexivity. Qed.

Example trim_nbsp : trim [0xA0; 0x3000; 0x0A]%N = [].
Proof. reflexivity. Qed.

Example tostring_num : ToString (JNum (-42)) = lit "-42".
Proof. reflexivity. Qed.

Example base_url_development :
  API_BASE_URL (Some (lit "development")) = lit "http://localhost:8000".
Proof. reflexivity. Qed.

(** ** Blank queries *)

Section Submission.

Import Runtime.

Variable NODE_ENV : Env.

Lemma step_submits (C : Entry.Component) (w : World C) (e : Event) :
  submits e = true ->
  step NODE_ENV w e = w \/ step NODE_ENV w e = submit NODE_ENV w.
Proof.
  unfold step. destruct (alive w); [|now left].
  destruct e; simpl; try discriminate; intros H.
  - rewrite H. now right.
  - destruct (view w) as [v|]; [|now left].
    destruct (Entry.button_disabled v); [now left | now right].
Qed.

Lemma dashboard_blank_submit (w : World DashboardApp.component) :
  blank (DashboardApp.searchTerm (app w)) = true ->
  submit NODE_ENV w = w.
Proof.
  intros H. apply trim_empty_iff_blank in H.
  unfold submit. simpl. unfold DashboardApp.handleSearch. now rewrite H.
Qed.

Lemma legacy_blank_submit (w : World LegacyApp.component) :
  blank (LegacyApp.query (app w)) = true ->
  submit NODE_ENV w = w.
Proof.
  intros H. apply trim_empty_iff_blank in H.
  unfold submit. simpl. unfold LegacyApp.handleSearch. now rewrite H.
Qed.

(** C6: A query that is empty or white space only is rejected before any
    request: in both React entry components a submitting event (Enter, a
    click on Scan) leaves the whole page state, including the list of
    requests sent, as it was; on the static page [performScreen] issues no
    request and leaves the input and the results [div] as they were (it
    raises the alert). *)
Theorem C6_blank_query_sends_nothing :
  forall s : jsstring,
    blank s = true ->
    (forall (w : World DashboardApp.component) (e : Event),
        DashboardApp.searchTerm (app w) = s -> submits e = true ->
        step NODE_ENV w e = w) /\
    (forall (w : World LegacyApp.component) (e : Event),
        LegacyApp.query (app w) = s -> submits e = true ->
        step NODE_ENV w e = w) /\
    (forall p : IndexHtml.Page,
        IndexHtml.entity_name_value p = s ->
        snd (IndexHtml.performScreen p) = None /\
        IndexHtml.resultsDiv (fst (IndexHtml.performScreen p))
          = IndexHtml.resultsDiv p /\
        IndexHtml.entity_name_value (fst (IndexHtml.performScreen p)) = s).
Proof.
  intros s Hs. repeat split.
  - intros w e Hw He. subst s.
    destruct (step_submits _ w e He) as [H|H]; rewrite H; trivial.
    now apply dashboard_blank_submit.
  - intros w e Hw He. subst s.
    destruct (step_submits _ w e He) as [H|H]; rewrite H; trivial.
    now apply legacy_blank_submit.
  - subst s. apply trim_empty_iff_blank in Hs.
    unfold IndexHtml.performScreen. now rewrite Hs.
  - subst s. apply trim_empty_iff_blank in Hs.
    unfold IndexHtml.performScreen. now rewrite Hs.
  - subst s. apply trim_empty_iff_blank in Hs.
    unfold IndexHtml.performScreen. now rewrite Hs.
Qed.

End Submission.

Lemma C6_blank_query_sends_nothing_witness :
  Runtime.step None
    (Runtime.run None (Runtime.start DashboardApp.component)
       [Runtime.Change (lit "   ")])
    Samples.Enter
  = Runtime.run None (Runtime.start DashboardApp.component)
      [Runtime.Change (lit "   ")].
Proof.
  destruct (C6_blank_query_sends_nothing None (lit "   ") eq_refl)
    as [H _].
  apply H; reflexivity.
Defined.

(** ** The query that is sent *)

(** [App.js] and the second entry component post the input as typed. *)
Lemma dashboard_posts_searchTerm (NODE_ENV : Env) (st : DashboardApp.State) :
  blank (DashboardApp.searchTerm st) = false ->
  option_map (fun p => entity_name (snd p))
    (DashboardApp.handleSearch NODE_ENV st)
  = Some (Some (DashboardApp.searchTerm st)).
Proof.
  intros H. apply trim_nonempty_iff_not_blank in H.
  unfold DashboardApp.handleSearch. now rewrite H.
Qed.

Lemma legacy_posts_query (NODE_ENV : Env) (st : LegacyApp.State) :
  blank (LegacyApp.query st) = false ->
  option_map (fun p => entity_name (snd p))
    (LegacyApp.handleSearch NODE_ENV st)
  = Some (Some (LegacyApp.query st)).
Proof.
  intros H. apply trim_nonempty_iff_not_blank in H.
  unfold LegacyApp.handleSearch. now rewrite H.
Qed.

(** [index.html] posts the trimmed input. *)
Lemma index_posts_trimmed (p : IndexHtml.Page) :
  blank (IndexHtml.entity_name_value p) = false ->
  option_map entity_name (snd (IndexHtml.performScreen p))
  = Some (Some (trim (IndexHtml.entity_name_value p))).
Proof.
  intros H. apply trim_nonempty_iff_not_blank in H.
  unfold IndexHtml.performScreen. now rewrite H.
Qed.

(** C8: At the input [" Acme "] [App.js] sends the request body
    [{ entity_name: " Acme " }]: the text as typed, with its leading and
    trailing space, although the trimmed query is ["Acme"]. Only
    [index.html] posts the trimmed text, see [index_posts_trimmed]. *)
Theorem C8_dashboard_posts_untrimmed_query :
  List.map (fun r => entity_name (snd r))
    (Runtime.sent
       (Runtime.run None (Runtime.start DashboardApp.component)
          [Runtime.Change (lit " Acme "); Samples.Enter]))
  = [Some (lit " Acme ")]
  /\ trim (lit " Acme ") = lit "Acme"
  /\ lit " Acme " <> lit "Acme".
Proof. repeat split; try reflexivity. discriminate. Qed.

(** ** [SearchResults]: empty input and identifiers *)

(** C9: With a [results] prop that is [undefined], [null] or an empty
    array, [SearchResults] returns [null] whatever its hook state holds: no
    heading, no loading line, no error line and no profile are rendered. *)
Theorem C9_no_results_renders_nothing :
  forall st : SearchResults.State,
    SearchResults.SearchResults SearchResults.ResultsUndefined st = None /\
    SearchResults.SearchResults SearchResults.ResultsNull st = None /\
    SearchResults.SearchResults (SearchResults.ResultsArray []) st = None.
Proof. intros st. repeat split. Qed.

(** With at least one match the component does render, cards in order. *)
Lemma SearchResults_nonempty (m : Match) (l : list Match)
      (st : SearchResults.State) :
  exists v,
    SearchResults.SearchResults (SearchResults.ResultsArray (m :: l)) st
      = Some v /\
    SearchResults.cards v = List.map SearchResults.card (m :: l) /\
    SearchResults.loading_details v = SearchResults.loading st /\
    SearchResults.error_text v = SearchResults.shown (SearchResults.error st).
Proof. eexists. split; [reflexivity|]. repeat split. Qed.

Lemma identifier_truthy (m : Match) :
  truthy (MatchPayload.entity_id m) = true ->
  SearchResults.identifier m = MatchPayload.entity_id m.
Proof. unfold SearchResults.identifier, or_else. now intros ->. Qed.

Lemma identifier_falsy (m : Match) :
  truthy (MatchPayload.entity_id m) = false ->
  SearchResults.identifier m = MatchPayload.id m.
Proof. unfold SearchResults.identifier, or_else. now intros ->. Qed.

(** C10: When [entity_id] is falsy (absent, [null], [false], [0] or the
    empty string) the card's key and click argument are the value of [id],
    and the request goes to [/v1/entity/] followed by that value: the
    fallback tests truthiness, so an empty [entity_id] is never what is
    sent. *)
Theorem C10_falsy_entity_id_falls_back_to_id :
  forall (NODE_ENV : Env) (m : Match) (st : SearchResults.State),
    truthy (MatchPayload.entity_id m) = false ->
    SearchResults.onClick (SearchResults.card m) = MatchPayload.id m /\
    SearchResults.key (SearchResults.card m) = MatchPayload.id m /\
    snd (SearchResults.handleResultClick NODE_ENV
           (SearchResults.onClick (SearchResults.card m)) st)
    = {| method := GET;
         url := API_BASE_URL NODE_ENV ++ lit "/v1/entity/"
                ++ ToString (MatchPayload.id m);
         entity_name := None |}.
Proof.
  intros env m st H. simpl. rewrite (identifier_falsy m H). repeat split.
Qed.

Lemma C10_falsy_entity_id_falls_back_to_id_witness :
  SearchResults.onClick (SearchResults.card Samples.delta)
  = JStr (lit "E9").
Proof.
  destruct (C10_falsy_entity_id_falls_back_to_id None Samples.delta
              SearchResults.init eq_refl) as [H _].
  exact H.
Defined.

(** ** The run-time model: what a re-render keeps *)

Section RuntimeFacts.

Import Runtime.

Variable C : Entry.Component.
Variable NODE_ENV : Env.

Implicit Types (w : World C) (e : Event).

Lemma commit_app w : app (commit w) = app w.
Proof.
  unfold commit. destruct (Entry.App C (app w)) as [|v]; [reflexivity|].
  destruct (Entry.search_results v), (child w); reflexivity.
Qed.

Lemma commit_sent w : sent (commit w) = sent w.
Proof.
  unfold commit. destruct (Entry.App C (app w)) as [|v]; [reflexivity|].
  destruct (Entry.search_results v), (child w); reflexivity.
Qed.

Lemma commit_next_request w : next_request (commit w) = next_request w.
Proof.
  unfold commit. destruct (Entry.App C (app w)) as [|v]; [reflexivity|].
  destruct (Entry.search_results v), (child w); reflexivity.
Qed.

Lemma commit_pending_screen w :
  pending_screen (commit w) = pending_screen w.
Proof.
  unfold commit. destruct (Entry.App C (app w)) as [|v]; [reflexivity|].
  destruct (Entry.search_results v), (child w); reflexivity.
Qed.

Lemma commit_pending_detail w :
  pending_detail (commit w) = pending_detail w.
Proof.
  unfold commit. destruct (Entry.App C (app w)) as [|v]; [reflexivity|].
  destruct (Entry.search_results v), (child w); reflexivity.
Qed.

Lemma commit_alive w v :
  Entry.App C (app w) = Entry.Renders v -> alive (commit w) = alive w.
Proof.
  unfold commit. intros ->.
  destruct (Entry.search_results v), (child w); reflexivity.
Qed.

(** A render without the [<SearchResults>] element unmounts the child. *)
Lemma commit_unmounts w v :
  Entry.App C (app w) = Entry.Renders v ->
  Entry.search_results v = None ->
  child (commit w) = None.
Proof.
  unfold commit. intros -> ->. reflexivity.
Qed.

(** A render with the element keeps a mounted child and its hook state. *)
Lemma commit_keeps w v l c :
  Entry.App C (app w) = Entry.Renders v ->
  Entry.search_results v = Some l ->
  child w = Some c ->
  child (commit w) = Some c.
Proof.
  unfold commit. intros -> -> Hc. rewrite Hc. exact Hc.
Qed.

(** A child mounted by a render starts from the initial hook state. *)
Lemma commit_mounts_fresh w v l :
  Entry.App C (app w) = Entry.Renders v ->
  Entry.search_results v = Some l ->
  child w = None ->
  child (commit w) = Some (next_instance w, SearchResults.init).
Proof.
  unfold commit. intros -> -> ->. reflexivity.
Qed.

Lemma view_commit w v :
  alive w = true ->
  Entry.App C (app w) = Entry.Renders v ->
  view (commit w) = Some v.
Proof.
  intros Ha Hv. unfold view.
  rewrite (commit_alive w v Hv), Ha, commit_app, Hv. reflexivity.
Qed.

Lemma mounted_alive w x : mounted w = Some x -> alive w = true.
Proof.
  unfold mounted, view. destruct (alive w); [reflexivity | discriminate].
Qed.

Lemma mounted_child w inst l dst :
  mounted w = Some (inst, l, dst) -> child w = Some (inst, dst).
Proof.
  unfold mounted. destruct (view w) as [v|]; [|discriminate].
  destruct (child w) as [[i d]|]; [|discriminate].
  destruct (Entry.search_results v); [|discriminate].
  now intros [= -> _ ->].
Qed.

Lemma mounted_displayed w inst l dst :
  mounted w = Some (inst, l, dst) -> displayed_matches w = Some l.
Proof.
  unfold mounted, displayed_matches. destruct (view w) as [v|]; [|discriminate].
  destruct (child w) as [[i d]|]; [|discriminate].
  destruct (Entry.search_results v); [|discriminate].
  now intros [= _ -> _].
Qed.

Lemma owner_of_head rid inst (l : list (nat * nat)) :
  owner_of rid ((rid, inst) :: l) = Some inst.
Proof.
  unfold owner_of. simpl. now rewrite Nat.eqb_refl.
Qed.

(** A click on the n-th card of the mounted list: one [GET] for that card's
    identifier, nothing else sent, the entry component untouched. *)
Lemma select_card w inst l dst n m :
  mounted w = Some (inst, l, dst) ->
  nth_error l n = Some m ->
  step NODE_ENV w (ClickCard n)
  = {| alive := alive w; app := app w;
       child := Some (inst,
                      fst (SearchResults.handleResultClick NODE_ENV
                             (SearchResults.identifier m) dst));
       next_instance := next_instance w;
       next_request := S (next_request w);
       pending_screen := pending_screen w;
       pending_detail := (next_request w, inst) :: pending_detail w;
       sent := sent w ++
               [(next_request w,
                 snd (SearchResults.handleResultClick NODE_ENV
                        (SearchResults.identifier m) dst))] |}.
Proof.
  intros Hm Hn. pose proof (mounted_alive w _ Hm) as Ha.
  unfold step, select, results_section. rewrite Hm, Ha.
  destruct l as [|m0 l0]; [destruct n; discriminate|].
  cbn [SearchResults.SearchResults SearchResults.cards].
  rewrite (map_nth_error SearchResults.card n (m0 :: l0) Hn).
  reflexivity.
Qed.

End RuntimeFacts.

Section Selection.

Import Runtime.

Variable C : Entry.Component.
Variable NODE_ENV : Env.

Implicit Types (w : World C).

Lemma mounted_with_child w w' inst l dst inst' dst' :
  mounted w = Some (inst, l, dst) ->
  alive w' = alive w -> app w' = app w ->
  child w' = Some (inst', dst') ->
  mounted w' = Some (inst', l, dst').
Proof.
  unfold mounted, view. intros Hm -> -> ->.
  destruct (alive w); [|discriminate].
  destruct (Entry.App C (app w)) as [|v]; [discriminate|].
  destruct (child w) as [[i d]|]; [|discriminate].
  destruct (Entry.search_results v); [|discriminate].
  now injection Hm as _ -> _.
Qed.

Lemma displayed_matches_ext w w' :
  alive w' = alive w -> app w' = app w ->
  displayed_matches w' = displayed_matches w.
Proof. unfold displayed_matches, view. now intros -> ->. Qed.

Lemma displayed_error_ext w w' :
  alive w' = alive w -> app w' = app w ->
  displayed_error w' = displayed_error w.
Proof. unfold displayed_error, view. now intros -> ->. Qed.

(** A selection whose request fails, as one run of two events. *)
Lemma select_then_failure w inst l dst n m (o : Outcome EntityProfile) :
  mounted w = Some (inst, l, dst) ->
  nth_error l n = Some m ->
  axios_await o = None ->
  run NODE_ENV w [ClickCard n; DetailSettled (next_request w) o]
  = {| alive := alive w; app := app w;
       child := Some (inst,
                      {| SearchResults.selectedEntity :=
                           SearchResults.selectedEntity dst;
                         SearchResults.loading := false;
                         SearchResults.error :=
                           Some (lit "Failed to fetch entity details") |});
       next_instance := next_instance w;
       next_request := S (next_request w);
       pending_screen := pending_screen w;
       pending_detail :=
         remove_key (next_request w)
           ((next_request w, inst) :: pending_detail w);
       sent := sent w ++
               [(next_request w,
                 snd (SearchResults.handleResultClick NODE_ENV
                        (SearchResults.identifier m) dst))] |}.
Proof.
  intros Hm Hn Ho. pose proof (mounted_alive C w _ Hm) as Ha.
  unfold run. cbn [fold_left].
  rewrite (select_card C NODE_ENV w inst l dst n m Hm Hn).
  unfold step. cbn [alive]. rewrite Ha.
  unfold detail_settled. cbn [pending_detail]. rewrite owner_of_head.
  cbn [alive app child next_instance next_request pending_screen sent].
  rewrite Nat.eqb_refl.
  unfold SearchResults.handleResultClick_settled. rewrite Ho.
  reflexivity.
Qed.

(** A detail response, of either kind and whenever it arrives, changes
    neither the entry component's state nor what it displays, and sends
    nothing. *)
Lemma detail_response_frame w rid (o : Outcome EntityProfile) :
  app (step NODE_ENV w (DetailSettled rid o)) = app w /\
  displayed_matches (step NODE_ENV w (DetailSettled rid o))
    = displayed_matches w /\
  displayed_error (step NODE_ENV w (DetailSettled rid o))
    = displayed_error w /\
  sent (step NODE_ENV w (DetailSettled rid o)) = sent w.
Proof.
  unfold step, detail_settled. destruct (alive w) eqn:Ha; [|now repeat split].
  destruct (owner_of rid (pending_detail w)); [|now repeat split].
  repeat split.
  - apply displayed_matches_ext; [now rewrite Ha | reflexivity].
  - apply displayed_error_ext; [now rewrite Ha | reflexivity].
Qed.

(** C4: With a match list on screen, a selection whose [fetchEntity]
    request fails (network failure or a status outside 2xx) leaves the entry
    component's state and the displayed match list as they were, keeps the
    same cards rendered in the same order and the profile that was shown, and
    only puts the detail loader in its failed state: error line set, loading
    off. No further request is sent. *)
Theorem C4_detail_failure_keeps_results :
  forall w inst l dst n m (o : Outcome EntityProfile),
    mounted w = Some (inst, l, dst) ->
    nth_error l n = Some m ->
    axios_await o = None ->
    let w' := run NODE_ENV w [ClickCard n; DetailSettled (next_request w) o] in
    app w' = app w /\
    displayed_matches w = Some l /\
    displayed_matches w' = Some l /\
    displayed_error w' = displayed_error w /\
    option_map SearchResults.cards (results_section w)
      = Some (List.map SearchResults.card l) /\
    option_map SearchResults.cards (results_section w')
      = Some (List.map SearchResults.card l) /\
    option_map SearchResults.profile (results_section w')
      = option_map SearchResults.profile (results_section w) /\
    option_map SearchResults.error_text (results_section w')
      = Some (Some (lit "Failed to fetch entity details")) /\
    option_map SearchResults.loading_details (results_section w')
      = Some false /\
    List.length (sent w') = S (List.length (sent w)).
Proof.
  intros w inst l dst n m o Hm Hn Ho w'.
  pose proof (select_then_failure w inst l dst n m o Hm Hn Ho) as Hw'.
  fold w' in Hw'.
  assert (Hal : alive w' = alive w) by now rewrite Hw'.
  assert (Hap : app w' = app w) by now rewrite Hw'.
  assert (Hm' : mounted w'
                = Some (inst, l,
                        {| SearchResults.selectedEntity :=
                             SearchResults.selectedEntity dst;
                           SearchResults.loading := false;
                           SearchResults.error :=
                             Some (lit "Failed to fetch entity details") |})).
  { apply (mounted_with_child w w' inst l dst _ _ Hm Hal Hap).
    now rewrite Hw'. }
  assert (Hl : exists m0 l0, l = m0 :: l0).
  { destruct l as [|m0 l0]; [destruct n; discriminate | eauto]. }
  destruct Hl as (m0 & l0 & ->).
  pose proof (mounted_displayed C w inst _ dst Hm) as Hd.
  repeat split; trivial.
  - now rewrite (displayed_matches_ext w w' Hal Hap).
  - now apply displayed_error_ext.
  - unfold results_section. now rewrite Hm.
  - unfold results_section. now rewrite Hm'.
  - unfold results_section. now rewrite Hm, Hm'.
  - unfold results_section. now rewrite Hm'.
  - unfold results_section. now rewrite Hm'.
  - rewrite Hw'. cbn [sent]. rewrite length_app. simpl. lia.
Qed.

(** C7: Selecting a match whose identifier is a non-empty string, carried
    by [entity_id] or (with [entity_id] absent) by [id], sends exactly one
    request, [GET {base}/v1/entity/{identifier}], with that string as the
    identifier: the two spellings give the same request. *)
Theorem C7_nonempty_identifier_in_either_field :
  forall w inst l dst n m (s : jsstring),
    mounted w = Some (inst, l, dst) ->
    nth_error l n = Some m ->
    s <> [] ->
    MatchPayload.entity_id m = JStr s \/
    (MatchPayload.entity_id m = JUndefined /\ MatchPayload.id m = JStr s) ->
    sent (step NODE_ENV w (ClickCard n))
    = sent w ++
      [(next_request w,
        {| method := GET;
           url := API_BASE_URL NODE_ENV ++ lit "/v1/entity/" ++ s;
           entity_name := None |})].
Proof.
  intros w inst l dst n m s Hm Hn Hs Hid.
  rewrite (select_card C NODE_ENV w inst l dst n m Hm Hn). cbn [sent].
  assert (SearchResults.identifier m = JStr s) as ->; [|reflexivity].
  unfold SearchResults.identifier, or_else.
  destruct Hid as [He | [He Hi]]; rewrite He.
  - destruct s; [contradiction | reflexivity].
  - exact Hi.
Qed.

End Selection.

Lemma C4_detail_failure_keeps_results_witness :
  Runtime.displayed_matches
    (Runtime.run None
       (Runtime.run None (Runtime.start DashboardApp.component)
          [Runtime.Change (lit "Acme"); Samples.Enter;
           Runtime.ScreenSettled 0 (Samples.ok200 Samples.acme_data)])
       [Runtime.ClickCard 0;
        Runtime.DetailSettled 1 (HttpResponse 404 Samples.acme_profile)])
  = Some [Samples.acme].
Proof.
  destruct (C4_detail_failure_keeps_results DashboardApp.component None
              (Runtime.run None (Runtime.start DashboardApp.component)
                 [Runtime.Change (lit "Acme"); Samples.Enter;
                  Runtime.ScreenSettled 0 (Samples.ok200 Samples.acme_data)])
              0 [Samples.acme] SearchResults.init 0 Samples.acme
              (HttpResponse 404 Samples.acme_profile)
              eq_refl eq_refl eq_refl) as (_ & _ & H & _).
  exact H.
Defined.

Lemma C7_nonempty_identifier_in_either_field_witness :
  Runtime.sent
    (Runtime.step Samples.production
       (Runtime.run Samples.production
          (Runtime.start DashboardApp.component)
          [Runtime.Change (lit "Acme"); Samples.Enter;
           Runtime.ScreenSettled 0 (Samples.ok200 Samples.acme_data)])
       (Runtime.ClickCard 0))
  = [(0, {| method := POST;
            url := lit "https://project-sentinel-2.onrender.com/v1/screen";
            entity_name := Some (lit "Acme") |});
     (1, {| method := GET;
            url := lit "https://project-sentinel-2.onrender.com/v1/entity/E1";
            entity_name := None |})].
Proof.
  assert (Hs : lit "E1" <> []) by discriminate.
  exact (C7_nonempty_identifier_in_either_field DashboardApp.component
           Samples.production
           (Runtime.run Samples.production
              (Runtime.start DashboardApp.component)
              [Runtime.Change (lit "Acme"); Samples.Enter;
               Runtime.ScreenSettled 0 (Samples.ok200 Samples.acme_data)])
           0 [Samples.acme] SearchResults.init 0 Samples.acme (lit "E1")
           eq_refl eq_refl Hs (or_intror (conj eq_refl eq_refl))).
Defined.

(** With [entity_id] the empty string and no [id], the request goes to
    [/v1/entity/undefined]; with the empty string under [id] it goes to
    [/v1/entity/]. *)
Lemma C7_empty_identifier_counterexample :
  url (snd (SearchResults.handleResultClick None
              (SearchResults.onClick
                 (SearchResults.card Samples.unnamed_entity))
              SearchResults.init))
  = lit "http://localhost:8000/v1/entity/undefined"
  /\ url (snd (SearchResults.handleResultClick None
                 (SearchResults.onClick
                    (SearchResults.card Samples.unnamed_entity_by_id))
                 SearchResults.init))
     = lit "http://localhost:8000/v1/entity/"
  /\ MatchPayload.entity_id Samples.unnamed_entity
     = MatchPayload.id Samples.unnamed_entity_by_id
  /\ lit "http://localhost:8000/v1/entity/undefined"
     <> lit "http://localhost:8000/v1/entity/" ++ [].
Proof. repeat split; try reflexivity. discriminate. Qed.

(** ** [App.js] at run time *)

Section Dashboard.

Import Runtime.

Variable NODE_ENV : Env.

Implicit Types (w : DWorld).

Lemma dashboard_commit_alive w : alive (commit w) = alive w.
Proof. exact (commit_alive _ w _ eq_refl). Qed.

Lemma dashboard_change w s :
  alive w = true ->
  step NODE_ENV w (Change s)
  = commit (with_app (C := DashboardApp.component)
              (DashboardApp.setSearchTerm s (app w)) w).
Proof. unfold step. now intros ->. Qed.

(** Enter with a query that is not blank: the four setters, one [POST], and
    a render in which [loading] hides the result list. *)
Lemma dashboard_enter w :
  alive w = true ->
  blank (DashboardApp.searchTerm (app w)) = false ->
  step NODE_ENV w (Key (lit "Enter"))
  = @Build_World DashboardApp.component true
      {| DashboardApp.searchTerm := DashboardApp.searchTerm (app w);
         DashboardApp.results := [];
         DashboardApp.loading := true;
         DashboardApp.error := [];
         DashboardApp.searched := true |}
      None (next_instance w) (S (next_request w))
      (next_request w :: pending_screen w) (pending_detail w)
      (sent w ++
       [(next_request w,
         {| method := POST;
            url := API_BASE_URL NODE_ENV ++ lit "/v1/screen";
            entity_name := Some (DashboardApp.searchTerm (app w)) |})]).
Proof.
  intros Ha Hb. apply trim_nonempty_iff_not_blank in Hb.
  unfold step. rewrite Ha. cbn [JsString.eqb]. rewrite eqb_refl.
  unfold submit. cbn [Entry.handleSearch DashboardApp.component].
  unfold DashboardApp.handleSearch. rewrite Hb.
  unfold commit. cbn. rewrite Ha. reflexivity.
Qed.

Lemma existsb_pending rid (l : list nat) :
  In rid l -> existsb (Nat.eqb rid) l = true.
Proof.
  intros H. apply existsb_exists. exists rid. split; trivial.
  apply Nat.eqb_refl.
Qed.

Lemma In_remove_nat a n (l : list nat) :
  In a l -> a <> n -> In a (remove_nat n l).
Proof.
  intros H Hn. unfold remove_nat. apply filter_In. split; trivial.
  apply negb_true_iff. now apply Nat.eqb_neq.
Qed.

Lemma dashboard_screen_settled w rid o :
  alive w = true ->
  In rid (pending_screen w) ->
  step NODE_ENV w (ScreenSettled rid o)
  = commit
      (@Build_World DashboardApp.component true
         (DashboardApp.handleSearch_settled o (app w))
         (child w) (next_instance w) (next_request w)
         (remove_nat rid (pending_screen w)) (pending_detail w) (sent w)).
Proof.
  intros Ha Hin. unfold step, screen_settled.
  rewrite Ha, (existsb_pending _ _ Hin). reflexivity.
Qed.

(** The list [App.js] hands to [SearchResults], read off its hook state. *)
Lemma dashboard_displayed w :
  alive w = true ->
  displayed_matches w
  = if negb (DashboardApp.loading (app w))
       && is_empty (DashboardApp.error (app w))
       && nonempty (DashboardApp.results (app w))
    then Some (DashboardApp.results (app w)) else None.
Proof. unfold displayed_matches, view. now intros ->. Qed.

Lemma dashboard_displayed_error w :
  alive w = true ->
  displayed_error w
  = if is_empty (DashboardApp.error (app w)) then None
    else Some (DashboardApp.error (app w)).
Proof. unfold displayed_error, view. now intros ->. Qed.

(** Two searches in flight, both answered with a match list: the list held
    and displayed at the end is the one settled last. *)
Lemma dashboard_last_settled_wins w q1 q2 :
  alive w = true ->
  blank q1 = false -> blank q2 = false ->
  let r1 := next_request w in
  let r2 := S (next_request w) in
  let w2 := run NODE_ENV w [Change q1; Key (lit "Enter");
                            Change q2; Key (lit "Enter")] in
  List.map (fun r => entity_name (snd r)) (sent w2)
  = List.map (fun r => entity_name (snd r)) (sent w) ++ [Some q1; Some q2] /\
  (forall oa ob da ra rb,
      (ra = r1 /\ rb = r2) \/ (ra = r2 /\ rb = r1) ->
      axios_await oa = Some da -> forall db, axios_await ob = Some db ->
      let w4 := run NODE_ENV w2 [ScreenSettled ra oa; ScreenSettled rb ob] in
      DashboardApp.results (app w4) = DashboardApp.matches_or_empty db /\
      displayed_matches w4
      = (if nonempty (DashboardApp.matches_or_empty db)
         then Some (DashboardApp.matches_or_empty db) else None)).
Proof.
  intros Ha Hq1 Hq2 r1 r2 w2.
  assert (Hw2 :
    alive w2 = true /\
    app w2 = {| DashboardApp.searchTerm := q2;
                DashboardApp.results := [];
                DashboardApp.loading := true;
                DashboardApp.error := [];
                DashboardApp.searched := true |} /\
    pending_screen w2 = r2 :: r1 :: pending_screen w /\
    sent w2 = (sent w ++
               [(r1, {| method := POST;
                        url := API_BASE_URL NODE_ENV ++ lit "/v1/screen";
                        entity_name := Some q1 |})]) ++
              [(r2, {| method := POST;
                       url := API_BASE_URL NODE_ENV ++ lit "/v1/screen";
                       entity_name := Some q2 |})]).
  { unfold w2, run. cbn [fold_left].
    rewrite (dashboard_change w q1 Ha).
    set (wa := commit (with_app _ w)).
    assert (Haa : alive wa = true)
      by (unfold wa; now rewrite dashboard_commit_alive).
    assert (Hta : DashboardApp.searchTerm (app wa) = q1)
      by (unfold wa; now rewrite commit_app).
    assert (Hna : next_request wa = next_request w)
      by (unfold wa; now rewrite commit_next_request).
    assert (Hpa : pending_screen wa = pending_screen w)
      by (unfold wa; now rewrite commit_pending_screen).
    assert (Hsa : sent wa = sent w)
      by (unfold wa; now rewrite commit_sent).
    rewrite (dashboard_enter wa Haa) by now rewrite Hta.
    rewrite Hta, Hna, Hpa, Hsa. clearbody wa.
    set (wb := Build_World _ _ _ _ _ _ _ _ _).
    rewrite (dashboard_change wb q2 eq_refl).
    set (wc := commit (with_app _ wb)).
    assert (Hac : alive wc = true) by reflexivity.
    assert (Htc : DashboardApp.searchTerm (app wc) = q2)
      by (unfold wc; now rewrite commit_app).
    assert (Hnc : next_request wc = r2)
      by (unfold wc; now rewrite commit_next_request).
    assert (Hpc : pending_screen wc = r1 :: pending_screen w)
      by (unfold wc; now rewrite commit_pending_screen).
    assert (Hsc : sent wc = sent wb)
      by (unfold wc; now rewrite commit_sent).
    rewrite (dashboard_enter wc Hac) by now rewrite Htc.
    rewrite Htc, Hnc, Hpc, Hsc. cbn. repeat split. }
  destruct Hw2 as (Ha2 & Happ2 & Hp2 & Hs2).
  split.
  - rewrite Hs2. rewrite !map_app. cbn. now rewrite <- app_assoc.
  - intros oa ob da ra rb Hr Hoa db Hob w4.
    assert (Hra : In ra (pending_screen w2))
      by (rewrite Hp2; cbn; destruct Hr as [[-> _]|[-> _]]; auto).
    assert (Hrb : In rb (pending_screen w2))
      by (rewrite Hp2; cbn; destruct Hr as [[_ ->]|[_ ->]]; auto).
    assert (Hne : rb <> ra)
      by (destruct Hr as [[-> ->]|[-> ->]]; unfold r1, r2; lia).
    unfold w4, run. cbn [fold_left].
    rewrite (dashboard_screen_settled w2 ra oa Ha2 Hra).
    set (w3 := commit _).
    assert (Ha3 : alive w3 = true)
      by (unfold w3; now rewrite dashboard_commit_alive).
    assert (Hp3 : In rb (pending_screen w3)).
    { unfold w3. rewrite commit_pending_screen. cbn [pending_screen].
      now apply In_remove_nat. }
    rewrite (dashboard_screen_settled w3 rb ob Ha3 Hp3).
    set (w5 := commit _).
    assert (Ha5 : alive w5 = true)
      by (unfold w5; now rewrite dashboard_commit_alive).
    assert (Hst : app w5
                  = {| DashboardApp.searchTerm := q2;
                       DashboardApp.results := DashboardApp.matches_or_empty db;
                       DashboardApp.loading := false;
                       DashboardApp.error := [];
                       DashboardApp.searched := true |}).
    { unfold w5. rewrite commit_app. cbn [app].
      unfold w3. rewrite commit_app. cbn [app]. rewrite Happ2.
      unfold DashboardApp.handleSearch_settled. rewrite Hoa, Hob.
      reflexivity. }
    split.
    + now rewrite Hst.
    + rewrite (dashboard_displayed w5 Ha5), Hst. reflexivity.
Qed.

End Dashboard.

(** ** The second entry component at run time *)

Section Legacy.

Import Runtime.

Variable NODE_ENV : Env.

Implicit Types (w : LWorld).

(** The render goes through as long as [results] holds an array. *)
Lemma legacy_commit_alive w l :
  LegacyApp.results (app w) = Some l -> alive (commit w) = alive w.
Proof.
  intros H. unfold commit. cbn [Entry.App LegacyApp.component].
  unfold LegacyApp.App. rewrite H. cbn.
  destruct (nonempty l), (child w); reflexivity.
Qed.

Lemma legacy_change w s :
  alive w = true ->
  step NODE_ENV w (Change s)
  = commit (with_app (C := LegacyApp.component)
              (LegacyApp.setQuery s (app w)) w).
Proof. unfold step. now intros ->. Qed.

(** Enter with a query that is not blank: two setters and one [POST] to the
    fixed local address; [results] is left as it was. *)
Lemma legacy_enter w :
  alive w = true ->
  blank (LegacyApp.query (app w)) = false ->
  step NODE_ENV w (Key (lit "Enter"))
  = commit
      (@Build_World LegacyApp.component true
         {| LegacyApp.query := LegacyApp.query (app w);
            LegacyApp.results := LegacyApp.results (app w);
            LegacyApp.searched := LegacyApp.searched (app w);
            LegacyApp.loading := true;
            LegacyApp.error := None |}
         (child w) (next_instance w) (S (next_request w))
         (next_request w :: pending_screen w) (pending_detail w)
         (sent w ++
          [(next_request w,
            {| method := POST;
               url := lit "http://localhost:8000/v1/screen";
               entity_name := Some (LegacyApp.query (app w)) |})])).
Proof.
  intros Ha Hb. apply trim_nonempty_iff_not_blank in Hb.
  unfold step. rewrite Ha. cbn [JsString.eqb]. rewrite eqb_refl.
  unfold submit. cbn [Entry.handleSearch LegacyApp.component].
  unfold LegacyApp.handleSearch. rewrite Hb, Ha. reflexivity.
Qed.

Lemma legacy_screen_settled w rid o :
  alive w = true ->
  In rid (pending_screen w) ->
  step NODE_ENV w (ScreenSettled rid o)
  = commit
      (@Build_World LegacyApp.component true
         (LegacyApp.handleSearch_settled o (app w))
         (child w) (next_instance w) (next_request w)
         (remove_nat rid (pending_screen w)) (pending_detail w) (sent w)).
Proof.
  intros Ha Hin. unfold step, screen_settled.
  rewrite Ha, (existsb_pending _ _ Hin). reflexivity.
Qed.

Lemma legacy_displayed w l :
  alive w = true ->
  LegacyApp.results (app w) = Some l ->
  displayed_matches w = if nonempty l then Some l else None.
Proof.
  unfold displayed_matches, view. intros -> H.
  cbn [Entry.App LegacyApp.component]. unfold LegacyApp.App.
  now rewrite H.
Qed.

(** Two searches in flight, both answered with a match list: the list held
    and displayed at the end is the one settled last. *)
Lemma legacy_last_settled_wins w l0 q1 q2 :
  alive w = true ->
  LegacyApp.results (app w) = Some l0 ->
  blank q1 = false -> blank q2 = false ->
  let r1 := next_request w in
  let r2 := S (next_request w) in
  let w2 := run NODE_ENV w [Change q1; Key (lit "Enter");
                            Change q2; Key (lit "Enter")] in
  List.map (fun r => entity_name (snd r)) (sent w2)
  = List.map (fun r => entity_name (snd r)) (sent w) ++ [Some q1; Some q2] /\
  (forall oa ob da ra rb la,
      (ra = r1 /\ rb = r2) \/ (ra = r2 /\ rb = r1) ->
      axios_await oa = Some da -> matches da = Some la ->
      forall db lb, axios_await ob = Some db -> matches db = Some lb ->
      let w4 := run NODE_ENV w2 [ScreenSettled ra oa; ScreenSettled rb ob] in
      LegacyApp.results (app w4) = Some lb /\
      displayed_matches w4 = (if nonempty lb then Some lb else None)).
Proof.
  intros Ha Hl0 Hq1 Hq2 r1 r2 w2.
  assert (Hw2 :
    alive w2 = true /\
    LegacyApp.results (app w2) = Some l0 /\
    pending_screen w2 = r2 :: r1 :: pending_screen w /\
    sent w2 = (sent w ++
               [(r1, {| method := POST;
                        url := lit "http://localhost:8000/v1/screen";
                        entity_name := Some q1 |})]) ++
              [(r2, {| method := POST;
                       url := lit "http://localhost:8000/v1/screen";
                       entity_name := Some q2 |})]).
  { unfold w2, run. cbn [fold_left].
    rewrite (legacy_change w q1 Ha).
    set (wa := commit (with_app _ w)).
    assert (Hra : LegacyApp.results (app wa) = Some l0)
      by (unfold wa; now rewrite commit_app).
    assert (Haa : alive wa = true).
    { unfold wa. rewrite (@legacy_commit_alive _ l0); trivial. }
    assert (Hta : LegacyApp.query (app wa) = q1)
      by (unfold wa; now rewrite commit_app).
    assert (Hna : next_request wa = next_request w)
      by (unfold wa; now rewrite commit_next_request).
    assert (Hpa : pending_screen wa = pending_screen w)
      by (unfold wa; now rewrite commit_pending_screen).
    assert (Hsa : sent wa = sent w)
      by (unfold wa; now rewrite commit_sent).
    rewrite (legacy_enter wa Haa) by now rewrite Hta.
    rewrite Hta, Hna, Hpa, Hsa, Hra. clearbody wa.
    set (wb := commit _).
    assert (Hrb : LegacyApp.results (app wb) = Some l0)
      by (unfold wb; now rewrite commit_app).
    assert (Hab : alive wb = true).
    { unfold wb. rewrite (@legacy_commit_alive _ l0); trivial. }
    assert (Hnb : next_request wb = r2)
      by (unfold wb; now rewrite commit_next_request).
    assert (Hpb : pending_screen wb = r1 :: pending_screen w)
      by (unfold wb; now rewrite commit_pending_screen).
    assert (Hsb : sent wb = sent w ++
               [(r1, {| method := POST;
                        url := lit "http://localhost:8000/v1/screen";
                        entity_name := Some q1 |})])
      by (unfold wb; now rewrite commit_sent).
    clearbody wb.
    rewrite (legacy_change wb q2 Hab).
    set (wc := commit (with_app _ wb)).
    assert (Hrc : LegacyApp.results (app wc) = Some l0)
      by (unfold wc; now rewrite commit_app).
    assert (Hac : alive wc = true).
    { unfold wc. rewrite (@legacy_commit_alive _ l0); trivial. }
    assert (Htc : LegacyApp.query (app wc) = q2)
      by (unfold wc; now rewrite commit_app).
    assert (Hnc : next_request wc = r2)
      by (unfold wc; now rewrite commit_next_request).
    assert (Hpc : pending_screen wc = r1 :: pending_screen w)
      by (unfold wc; now rewrite commit_pending_screen).
    assert (Hsc : sent wc = sent wb)
      by (unfold wc; now rewrite commit_sent).
    rewrite (legacy_enter wc Hac) by now rewrite Htc.
    rewrite Htc, Hnc, Hpc, Hsc, Hrc, Hsb. clearbody wc.
    rewrite (@legacy_commit_alive _ l0) by reflexivity.
    rewrite commit_app, commit_pending_screen, commit_sent.
    repeat split. }
  destruct Hw2 as (Ha2 & Happ2 & Hp2 & Hs2).
  split.
  - rewrite Hs2. rewrite !map_app. cbn. now rewrite <- app_assoc.
  - intros oa ob da ra rb la Hr Hoa Hla db lb Hob Hlb w4.
    assert (Hra : In ra (pending_screen w2))
      by (rewrite Hp2; cbn; destruct Hr as [[-> _]|[-> _]]; auto).
    assert (Hrb : In rb (pending_screen w2))
      by (rewrite Hp2; cbn; destruct Hr as [[_ ->]|[_ ->]]; auto).
    assert (Hne : rb <> ra)
      by (destruct Hr as [[-> ->]|[-> ->]]; unfold r1, r2; lia).
    unfold w4, run. cbn [fold_left].
    rewrite (legacy_screen_settled w2 ra oa Ha2 Hra).
    set (w3 := commit _).
    assert (Hr3 : LegacyApp.results (app w3) = Some la).
    { unfold w3. rewrite commit_app. cbn [app].
      unfold LegacyApp.handleSearch_settled. now rewrite Hoa. }
    assert (Ha3 : alive w3 = true).
    { unfold w3. rewrite (@legacy_commit_alive _ la); trivial.
      cbn [app]. unfold LegacyApp.handleSearch_settled. now rewrite Hoa. }
    assert (Hp3 : In rb (pending_screen w3)).
    { unfold w3. rewrite commit_pending_screen. cbn [pending_screen].
      now apply In_remove_nat. }
    clearbody w3.
    rewrite (legacy_screen_settled w3 rb ob Ha3 Hp3).
    set (w5 := commit _).
    assert (Hr5 : LegacyApp.results (app w5) = Some lb).
    { unfold w5. rewrite commit_app. cbn [app].
      unfold LegacyApp.handleSearch_settled. now rewrite Hob. }
    assert (Ha5 : alive w5 = true).
    { unfold w5. rewrite (@legacy_commit_alive _ lb); trivial.
      cbn [app]. unfold LegacyApp.handleSearch_settled. now rewrite Hob. }
    split; [exact Hr5 | now apply legacy_displayed].
Qed.

End Legacy.

(** ** Two searches in flight *)

(** C1: With a second query submitted before the first one's response
    arrives and both answered with a match list, the list held and displayed
    once both responses have been delivered is that of the response delivered
    last: the second query's when the first response arrives first, the first
    query's when it arrives after the second. No response is discarded. This
    holds for both entry components. *)
Theorem C1_last_settled_response_wins :
  forall (NODE_ENV : Env) (q1 q2 : jsstring) (o1 o2 : Outcome ScreenData)
         (d1 d2 : ScreenData) (l1 l2 : list Match),
    blank q1 = false -> blank q2 = false ->
    axios_await o1 = Some d1 -> matches d1 = Some l1 ->
    axios_await o2 = Some d2 -> matches d2 = Some l2 ->
    (forall w : Runtime.World DashboardApp.component,
        Runtime.alive w = true ->
        let r1 := Runtime.next_request w in
        let r2 := S (Runtime.next_request w) in
        let w2 := Runtime.run NODE_ENV w
                    [Runtime.Change q1; Runtime.Key (lit "Enter");
                     Runtime.Change q2; Runtime.Key (lit "Enter")] in
        let in_order := Runtime.run NODE_ENV w2
                          [Runtime.ScreenSettled r1 o1;
                           Runtime.ScreenSettled r2 o2] in
        let overtaken := Runtime.run NODE_ENV w2
                           [Runtime.ScreenSettled r2 o2;
                            Runtime.ScreenSettled r1 o1] in
        DashboardApp.results (Runtime.app in_order) = l2 /\
        Runtime.displayed_matches in_order
          = (if nonempty l2 then Some l2 else None) /\
        DashboardApp.results (Runtime.app overtaken) = l1 /\
        Runtime.displayed_matches overtaken
          = (if nonempty l1 then Some l1 else None)) /\
    (forall (w : Runtime.World LegacyApp.component) (l0 : list Match),
        Runtime.alive w = true ->
        LegacyApp.results (Runtime.app w) = Some l0 ->
        let r1 := Runtime.next_request w in
        let r2 := S (Runtime.next_request w) in
        let w2 := Runtime.run NODE_ENV w
                    [Runtime.Change q1; Runtime.Key (lit "Enter");
                     Runtime.Change q2; Runtime.Key (lit "Enter")] in
        let in_order := Runtime.run NODE_ENV w2
                          [Runtime.ScreenSettled r1 o1;
                           Runtime.ScreenSettled r2 o2] in
        let overtaken := Runtime.run NODE_ENV w2
                           [Runtime.ScreenSettled r2 o2;
                            Runtime.ScreenSettled r1 o1] in
        LegacyApp.results (Runtime.app in_order) = Some l2 /\
        Runtime.displayed_matches in_order
          = (if nonempty l2 then Some l2 else None) /\
        LegacyApp.results (Runtime.app overtaken) = Some l1 /\
        Runtime.displayed_matches overtaken
          = (if nonempty l1 then Some l1 else None)).
Proof.
  intros env q1 q2 o1 o2 d1 d2 l1 l2 Hq1 Hq2 Ho1 Hl1 Ho2 Hl2. split.
  - intros w Ha r1 r2 w2 in_order overtaken.
    destruct (dashboard_last_settled_wins env w q1 q2 Ha Hq1 Hq2) as [_ H].
    assert (E1 : DashboardApp.matches_or_empty d1 = l1)
      by (unfold DashboardApp.matches_or_empty; now rewrite Hl1).
    assert (E2 : DashboardApp.matches_or_empty d2 = l2)
      by (unfold DashboardApp.matches_or_empty; now rewrite Hl2).
    destruct (H o1 o2 d1 r1 r2 (or_introl (conj eq_refl eq_refl)) Ho1 d2 Ho2)
      as [A B].
    destruct (H o2 o1 d2 r2 r1 (or_intror (conj eq_refl eq_refl)) Ho2 d1 Ho1)
      as [A' B'].
    rewrite E2 in A, B. rewrite E1 in A', B'. auto.
  - intros w l0 Ha Hl0 r1 r2 w2 in_order overtaken.
    destruct (legacy_last_settled_wins env w l0 q1 q2 Ha Hl0 Hq1 Hq2)
      as [_ H].
    destruct (H o1 o2 d1 r1 r2 l1 (or_introl (conj eq_refl eq_refl))
                Ho1 Hl1 d2 l2 Ho2 Hl2) as [A B].
    destruct (H o2 o1 d2 r2 r1 l2 (or_intror (conj eq_refl eq_refl))
                Ho2 Hl2 d1 l1 Ho1 Hl1) as [A' B'].
    auto.
Qed.

Lemma C1_last_settled_response_wins_witness :
  Runtime.displayed_matches
    (Runtime.run None
       (Runtime.run None (Runtime.start DashboardApp.component)
          [Runtime.Change (lit "Acme"); Runtime.Key (lit "Enter");
           Runtime.Change (lit "Beta"); Runtime.Key (lit "Enter")])
       [Runtime.ScreenSettled 1 (Samples.ok200 Samples.beta_data);
        Runtime.ScreenSettled 0 (Samples.ok200 Samples.acme_data)])
  = Some [Samples.acme].
Proof.
  destruct (C1_last_settled_response_wins None (lit "Acme") (lit "Beta")
              (Samples.ok200 Samples.acme_data)
              (Samples.ok200 Samples.beta_data)
              Samples.acme_data Samples.beta_data
              [Samples.acme] [Samples.beta]
              eq_refl eq_refl eq_refl eq_refl eq_refl eq_refl) as [H _].
  destruct (H (Runtime.start DashboardApp.component) eq_refl)
    as (_ & _ & _ & H4).
  exact H4.
Defined.

(** The second query is ["Beta"], its response arrives first, and the page
    ends up holding and showing the matches of ["Acme"]. *)
Lemma C1_overtaken_counterexample :
  List.map (fun r => entity_name (snd r)) (Runtime.sent Samples.overtaken)
  = [Some (lit "Acme"); Some (lit "Beta")]
  /\ DashboardApp.results (Runtime.app Samples.overtaken) = [Samples.acme]
  /\ Runtime.displayed_matches Samples.overtaken = Some [Samples.acme]
  /\ Runtime.displayed_matches Samples.overtaken <> Some [Samples.beta].
Proof. repeat split; try reflexivity. discriminate. Qed.

(** ** Which instance a detail response reaches *)

Section Instances.

Import Runtime.

Variable C : Entry.Component.
Variable NODE_ENV : Env.

Implicit Types (w : World C) (e : Event).

Lemma owners_known_ext w w' :
  child w' = child w -> pending_detail w' = pending_detail w ->
  next_instance w' = next_instance w ->
  owners_known w -> owners_known w'.
Proof. unfold owners_known. now intros -> -> ->. Qed.

Lemma unselected_ext w w' :
  child w' = child w -> pending_detail w' = pending_detail w ->
  unselected w -> unselected w'.
Proof. unfold unselected. now intros -> ->. Qed.

Lemma commit_owners_known w : owners_known w -> owners_known (commit w).
Proof.
  intros [Hp Hc]. unfold commit.
  destruct (Entry.App C (app w)) as [|v].
  - split; cbn; [exact Hp | discriminate].
  - destruct (Entry.search_results v) as [l|].
    + destruct (child w) as [c|] eqn:E.
      * split; [exact Hp | now rewrite E].
      * split; cbn.
        -- intros r o Hin. specialize (Hp r o Hin). lia.
        -- intros i d [= <- _]. lia.
    + split; cbn; [exact Hp | discriminate].
Qed.

Lemma commit_unselected w :
  owners_known w -> unselected w -> unselected (commit w).
Proof.
  intros [Hp Hc] Hu. unfold commit.
  destruct (Entry.App C (app w)) as [|v].
  - intros i d. cbn. discriminate.
  - destruct (Entry.search_results v) as [l|].
    + destruct (child w) as [c|] eqn:E.
      * exact Hu.
      * intros i d. cbn. intros [= <- <-]. split; [reflexivity|].
        intros r Hin. specialize (Hp r _ Hin). lia.
    + intros i d. cbn. discriminate.
Qed.

Lemma In_remove_key rid (l : list (nat * nat)) p :
  In p (remove_key rid l) -> In p l.
Proof. unfold remove_key. intros H. now apply filter_In in H. Qed.

Lemma owner_of_In rid (l : list (nat * nat)) owner :
  owner_of rid l = Some owner -> In (rid, owner) l.
Proof.
  unfold owner_of. destruct (find _ l) as [[r o]|] eqn:E; [|discriminate].
  cbn. intros [= <-]. apply find_some in E as [Hin Heq].
  cbn in Heq. apply Nat.eqb_eq in Heq. now subst r.
Qed.

Lemma step_owners_known w e :
  owners_known w -> owners_known (step NODE_ENV w e).
Proof.
  intros Hk. unfold step. destruct (alive w) eqn:Ha; [|exact Hk].
  assert (Hsub : owners_known (submit NODE_ENV w)).
  { unfold submit.
    destruct (Entry.handleSearch C NODE_ENV (app w)) as [[st req]|];
      [|exact Hk].
    apply commit_owners_known. exact Hk. }
  destruct e.
  - apply commit_owners_known. exact Hk.
  - destruct (JsString.eqb key (lit "Enter")); [exact Hsub | exact Hk].
  - destruct (view w) as [v|]; [|exact Hk].
    destruct (Entry.button_disabled v); [exact Hk | exact Hsub].
  - unfold select. destruct (mounted w) as [[[inst l] dst]|] eqn:Hm;
      [|exact Hk].
    destruct (results_section w) as [sv|]; [|exact Hk].
    destruct (nth_error (SearchResults.cards sv) n) as [c|]; [|exact Hk].
    destruct Hk as [Hp Hc].
    pose proof (mounted_child C w inst l dst Hm) as Hch.
    split; cbn.
    + intros r o [[= <- <-]|Hin]; [now apply (Hc inst dst) | exact (Hp r o Hin)].
    + intros i d [= <- _]. now apply (Hc inst dst).
  - unfold screen_settled.
    destruct (existsb (Nat.eqb rid) (pending_screen w)); [|exact Hk].
    apply commit_owners_known. exact Hk.
  - unfold detail_settled.
    destruct (owner_of rid (pending_detail w)) as [owner|]; [|exact Hk].
    destruct Hk as [Hp Hc]. split; cbn.
    + intros r o' Hin. apply In_remove_key in Hin. exact (Hp r o' Hin).
    + intros i d. destruct (child w) as [[i0 d0]|]; [|discriminate].
      destruct (Nat.eqb i0 owner); intros [= <- _]; now apply (Hc i0 d0).
Qed.

(** Without a new selection, a child that holds no profile and awaits no
    response keeps none: responses to requests of unmounted instances are
    dropped. *)
Lemma step_unselected w e :
  owners_known w -> unselected w -> is_click e = false ->
  unselected (step NODE_ENV w e).
Proof.
  intros Hk Hu He. unfold step. destruct (alive w) eqn:Ha; [|exact Hu].
  assert (Hsub : unselected (submit NODE_ENV w)).
  { unfold submit.
    destruct (Entry.handleSearch C NODE_ENV (app w)) as [[st req]|];
      [|exact Hu].
    apply commit_unselected; [exact Hk | exact Hu]. }
  destruct e; try discriminate.
  - apply commit_unselected; [exact Hk | exact Hu].
  - destruct (JsString.eqb key (lit "Enter")); [exact Hsub | exact Hu].
  - destruct (view w) as [v|]; [|exact Hu].
    destruct (Entry.button_disabled v); [exact Hu | exact Hsub].
  - unfold screen_settled.
    destruct (existsb (Nat.eqb rid) (pending_screen w)); [|exact Hu].
    apply commit_unselected; [exact Hk | exact Hu].
  - unfold detail_settled.
    destruct (owner_of rid (pending_detail w)) as [owner|] eqn:Ho;
      [|exact Hu].
    apply owner_of_In in Ho.
    intros i d. cbn. destruct (child w) as [[i0 d0]|] eqn:Hc; [|discriminate].
    destruct (Hu i0 d0 Hc) as [Hsel Hnone].
    destruct (Nat.eqb i0 owner) eqn:E.
    + apply Nat.eqb_eq in E. subst owner. now destruct (Hnone rid).
    + intros [= <- <-]. split; [exact Hsel|].
      intros r Hin. apply In_remove_key in Hin. now apply (Hnone r).
Qed.

Lemma run_owners_known es : forall w,
  owners_known w -> owners_known (run NODE_ENV w es).
Proof.
  induction es as [|e es IH]; intros w Hk; [exact Hk|].
  cbn. apply IH. now apply step_owners_known.
Qed.

Lemma run_unselected es : forall w,
  owners_known w -> unselected w ->
  forallb (fun e => negb (is_click e)) es = true ->
  unselected (run NODE_ENV w es).
Proof.
  induction es as [|e es IH]; intros w Hk Hu Hes; [exact Hu|].
  cbn in Hes. apply andb_true_iff in Hes as [He Hes].
  apply negb_true_iff in He.
  cbn. apply IH; trivial.
  - now apply step_owners_known.
  - now apply step_unselected.
Qed.

Lemma start_owners_known : owners_known (start C).
Proof.
  unfold start. apply commit_owners_known. split; cbn.
  - intros r o [].
  - discriminate.
Qed.

Lemma unselected_held_profile w : unselected w -> held_profile w = None.
Proof.
  unfold held_profile. intros Hu.
  destruct (child w) as [[i d]|] eqn:E; [|reflexivity].
  now destruct (Hu i d E).
Qed.

Lemma unmounted_unselected w : child w = None -> unselected w.
Proof. unfold unselected. intros ->. discriminate. Qed.

End Instances.

(** ** A new search and the detail view *)

Section DashboardSearch.

Import Runtime.

Variable NODE_ENV : Env.

Implicit Types (w : World DashboardApp.component).

Lemma dashboard_mounted_idle w inst l dst :
  mounted w = Some (inst, l, dst) ->
  DashboardApp.loading (app w) = false.
Proof.
  unfold mounted, view. destruct (alive w); [|discriminate].
  cbn. destruct (child w) as [[i d]|]; [|discriminate].
  destruct (DashboardApp.loading (app w)); [discriminate | reflexivity].
Qed.

Lemma dashboard_step_submits w e :
  alive w = true ->
  DashboardApp.loading (app w) = false ->
  submits e = true ->
  step NODE_ENV w e = step NODE_ENV w (Key (lit "Enter")).
Proof.
  intros Ha Hl He. destruct e; try discriminate.
  - cbn in He. apply eqb_eq in He. now subst key.
  - unfold step, view. rewrite Ha, eqb_refl. cbn. now rewrite Hl.
Qed.

(** In [App.js] a submitted query unmounts [SearchResults] at once, and
    with it the profile it held; as long as nothing is selected anew, no
    later event brings a profile back, whichever responses still arrive. *)
Lemma dashboard_new_search_discards_profile w e es inst l dst :
  owners_known w ->
  mounted w = Some (inst, l, dst) ->
  blank (DashboardApp.searchTerm (app w)) = false ->
  submits e = true ->
  forallb (fun e' => negb (is_click e')) es = true ->
  results_section (step NODE_ENV w e) = None /\
  held_profile (step NODE_ENV w e) = None /\
  held_profile (run NODE_ENV (step NODE_ENV w e) es) = None.
Proof.
  intros Hk Hm Hb He Hes.
  pose proof (mounted_alive _ w _ Hm) as Ha.
  pose proof (dashboard_mounted_idle w inst l dst Hm) as Hl.
  pose proof (step_owners_known _ NODE_ENV w e Hk) as Hk'.
  rewrite (dashboard_step_submits w e Ha Hl He) in *.
  rewrite (dashboard_enter NODE_ENV w Ha Hb) in *.
  repeat split.
  apply unselected_held_profile. apply run_unselected; trivial.
  now apply unmounted_unselected.
Qed.

(** In [App.js] a failed search shows the error line and no match list,
    whatever was displayed before. *)
Lemma dashboard_failure_hides_results w rid o :
  alive w = true ->
  In rid (pending_screen w) ->
  axios_await o = None ->
  displayed_error (step NODE_ENV w (ScreenSettled rid o))
    = Some DashboardApp.SEARCH_FAILED /\
  displayed_matches (step NODE_ENV w (ScreenSettled rid o)) = None /\
  results_section (step NODE_ENV w (ScreenSettled rid o)) = None /\
  DashboardApp.loading (app (step NODE_ENV w (ScreenSettled rid o))) = false.
Proof.
  intros Ha Hin Ho. rewrite (dashboard_screen_settled NODE_ENV w rid o Ha Hin).
  set (w' := commit _).
  assert (Ha' : alive w' = true)
    by (unfold w'; now rewrite dashboard_commit_alive).
  assert (Hst : app w'
                = {| DashboardApp.searchTerm := DashboardApp.searchTerm (app w);
                     DashboardApp.results := DashboardApp.results (app w);
                     DashboardApp.loading := false;
                     DashboardApp.error := DashboardApp.SEARCH_FAILED;
                     DashboardApp.searched := DashboardApp.searched (app w) |}).
  { unfold w'. rewrite commit_app. cbn [app].
    unfold DashboardApp.handleSearch_settled. now rewrite Ho. }
  assert (Hd : displayed_matches w' = None)
    by (rewrite (dashboard_displayed w' Ha'), Hst; reflexivity).
  repeat split.
  - rewrite (dashboard_displayed_error w' Ha'), Hst. reflexivity.
  - exact Hd.
  - unfold results_section, mounted. unfold displayed_matches in Hd.
    destruct (view w') as [v|]; [|reflexivity].
    destruct (child w') as [[i d]|]; [|reflexivity]. now rewrite Hd.
  - now rewrite Hst.
Qed.

(** Every request [App.js] and its [SearchResults] send goes to the
    address resolved from the environment. *)
Lemma dashboard_requests_use_base_url w e :
  exists added,
    sent (step NODE_ENV w e) = sent w ++ added /\
    Forall (fun r => exists path,
                url (snd r) = API_BASE_URL NODE_ENV ++ path) added.
Proof.
  assert (Hnone : exists added,
             sent w = sent w ++ added /\
             Forall (fun r => exists path,
                         url (snd r) = API_BASE_URL NODE_ENV ++ path) added)
    by (exists []; split; [now rewrite app_nil_r | constructor]).
  assert (Hsub : exists added,
             sent (submit NODE_ENV w) = sent w ++ added /\
             Forall (fun r => exists path,
                         url (snd r) = API_BASE_URL NODE_ENV ++ path) added).
  { unfold submit. cbn [Entry.handleSearch DashboardApp.component].
    unfold DashboardApp.handleSearch.
    destruct (is_empty (trim (DashboardApp.searchTerm (app w))));
      [exact Hnone|].
    rewrite commit_sent. cbn [sent]. eexists. split; [reflexivity|].
    repeat constructor. cbn. eauto. }
  unfold step. destruct (alive w); [|exact Hnone].
  destruct e.
  - rewrite commit_sent. exact Hnone.
  - destruct (JsString.eqb key (lit "Enter")); [exact Hsub | exact Hnone].
  - destruct (view w) as [v|]; [|exact Hnone].
    destruct (Entry.button_disabled v); [exact Hnone | exact Hsub].
  - unfold select. destruct (mounted w) as [[[inst l] dst]|]; [|exact Hnone].
    destruct (results_section w) as [sv|]; [|exact Hnone].
    destruct (nth_error (SearchResults.cards sv) n) as [c|]; [|exact Hnone].
    cbn. eexists. split; [reflexivity|]. repeat constructor. cbn. eauto.
  - unfold screen_settled.
    destruct (existsb (Nat.eqb rid) (pending_screen w)); [|exact Hnone].
    rewrite commit_sent. exact Hnone.
  - unfold detail_settled.
    destruct (owner_of rid (pending_detail w)); exact Hnone.
Qed.

(** While a search is loading the Scan button is disabled: a second search
    can only be started from the keyboard. *)
Lemma dashboard_scan_disabled_while_loading w :
  DashboardApp.loading (app w) = true ->
  step NODE_ENV w ClickScan = w.
Proof.
  intros Hl. unfold step, view. destruct (alive w); [|reflexivity].
  cbn. now rewrite Hl.
Qed.

(** The same, for every page reached from the start. *)
Lemma dashboard_reachable_new_search_discards_profile es0 e es inst l dst :
  mounted (run NODE_ENV (start DashboardApp.component) es0)
    = Some (inst, l, dst) ->
  blank (DashboardApp.searchTerm
           (app (run NODE_ENV (start DashboardApp.component) es0))) = false ->
  submits e = true ->
  forallb (fun e' => negb (is_click e')) es = true ->
  held_profile
    (run NODE_ENV
       (step NODE_ENV (run NODE_ENV (start DashboardApp.component) es0) e)
       es)
  = None.
Proof.
  intros Hm Hb He Hes.
  apply (dashboard_new_search_discards_profile _ e es inst l dst); trivial.
  apply run_owners_known, start_owners_known.
Qed.

End DashboardSearch.

(** [index.html] shows its error text, and no card, when the response is
    not a success or the request fails. *)
Lemma index_failure_shows_error (o : Outcome ScreenData) (p : IndexHtml.Page) :
  axios_await o = None ->
  IndexHtml.resultsDiv (IndexHtml.performScreen_settled o p)
  = IndexHtml.ErrorText.
Proof.
  unfold axios_await, IndexHtml.performScreen_settled.
  destruct o as [|status data]; [reflexivity|].
  destruct (ok status); [discriminate | reflexivity].
Qed.

(** ** The second entry component against the dashboard *)

(** C2: With [NODE_ENV] set to ["production"], the second entry component
    posts its search to [http://localhost:8000/v1/screen], the address written
    into its [handleSearch], while the detail request of the same page goes to
    the production address resolved from the environment; [index.html] posts
    to the relative [/v1/screen]. *)
Theorem C2_legacy_ignores_environment :
  List.map (fun r => url (snd r))
    (Runtime.sent
       (Runtime.run Samples.production (Runtime.start LegacyApp.component)
          Samples.search_and_select))
  = [lit "http://localhost:8000/v1/screen";
     lit "https://project-sentinel-2.onrender.com/v1/entity/E1"]
  /\ API_BASE_URL Samples.production
     = lit "https://project-sentinel-2.onrender.com"
  /\ List.map (fun r => url (snd r))
       (Runtime.sent
          (Runtime.run Samples.production
             (Runtime.start DashboardApp.component)
             Samples.search_and_select))
     = [lit "https://project-sentinel-2.onrender.com/v1/screen";
        lit "https://project-sentinel-2.onrender.com/v1/entity/E1"]
  /\ option_map url
       (snd (IndexHtml.performScreen
               {| IndexHtml.entity_name_value := lit "Acme";
                  IndexHtml.resultsDiv := IndexHtml.Untouched;
                  IndexHtml.alerts := [] |}))
     = Some (lit "/v1/screen").
Proof. repeat split. Qed.

(** C3: In the second entry component, after a search, a selection whose
    profile loads and a second search that returns matches, the
    [SearchResults] instance is still the first one: it shows the new cards
    together with the profile selected under the first search. In [App.js]
    the same events leave no profile. *)
Theorem C3_legacy_keeps_profile_across_searches :
  Runtime.held_profile
    (Runtime.run None (Runtime.start LegacyApp.component)
       Samples.second_search)
  = Some Samples.acme_profile
  /\ Runtime.displayed_matches
       (Runtime.run None (Runtime.start LegacyApp.component)
          Samples.second_search)
     = Some [Samples.beta]
  /\ option_map SearchResults.profile
       (Runtime.results_section
          (Runtime.run None (Runtime.start LegacyApp.component)
             Samples.second_search))
     = Some (Some (EntityProfilePage.EntityProfilePage
                     (Some Samples.acme_profile)))
  /\ Runtime.held_profile
       (Runtime.run None (Runtime.start DashboardApp.component)
          Samples.second_search)
     = None.
Proof. repeat split. Qed.

(** C5: In the second entry component, a search answered with HTTP 500
    after an earlier successful search shows the error line and, next to it,
    the match list of the earlier search. In [App.js] the same events show the
    error line and no list. *)
Theorem C5_legacy_shows_old_matches_with_error :
  Runtime.displayed_error
    (Runtime.run None (Runtime.start LegacyApp.component)
       Samples.failed_second_search)
  = Some (lit "Search failed")
  /\ Runtime.displayed_matches
       (Runtime.run None (Runtime.start LegacyApp.component)
          Samples.failed_second_search)
     = Some [Samples.acme]
  /\ option_map SearchResults.cards
       (Runtime.results_section
          (Runtime.run None (Runtime.start LegacyApp.component)
             Samples.failed_second_search))
     = Some [SearchResults.card Samples.acme]
  /\ Runtime.displayed_error
       (Runtime.run None (Runtime.start DashboardApp.component)
          Samples.failed_second_search)
     = Some DashboardApp.SEARCH_FAILED
  /\ Runtime.displayed_matches
       (Runtime.run None (Runtime.start DashboardApp.component)
          Samples.failed_second_search)
     = None.
Proof. repeat split. Qed.

(** * Further properties *)

Ltac conjuncts := repeat match goal with |- _ /\ _ => split end.

(** ** [App.js]: one search from submission to response *)

Section DashboardFlow.

Import Runtime.

Variable NODE_ENV : Env.

Implicit Types (w : DWorld).

Lemma dashboard_view w :
  alive w = true -> view w = Some match DashboardApp.App (app w) with
                                  | Entry.Renders v => v
                                  | Entry.Throws =>
                                      {| Entry.input_value := [];
                                         Entry.button_disabled := false;
                                         Entry.button_label := [];
                                         Entry.loading_text := None;
                                         Entry.error_message := None;
                                         Entry.no_matches := false;
                                         Entry.search_results := None |}
                                  end.
Proof. unfold view. now intros ->. Qed.

(** X1: In [App.js], Enter or a click on the enabled Scan button with a
    query that is not blank sends exactly one request, a [POST] to
    [{base}/v1/screen] whose [entity_name] is the input as typed; it empties
    the held results, clears the error, turns loading on, marks the page as
    searched and unmounts [SearchResults], so that only the loading line is
    shown. *)
Theorem X1_dashboard_submit_starts_one_search :
  forall (w : DWorld) (e : Event),
    alive w = true ->
    DashboardApp.loading (app w) = false ->
    blank (DashboardApp.searchTerm (app w)) = false ->
    submits e = true ->
    sent (step NODE_ENV w e)
    = sent w ++
      [(next_request w,
        {| method := POST;
           url := API_BASE_URL NODE_ENV ++ lit "/v1/screen";
           entity_name := Some (DashboardApp.searchTerm (app w)) |})] /\
    app (step NODE_ENV w e)
    = {| DashboardApp.searchTerm := DashboardApp.searchTerm (app w);
         DashboardApp.results := [];
         DashboardApp.loading := true;
         DashboardApp.error := [];
         DashboardApp.searched := true |} /\
    pending_screen (step NODE_ENV w e) = next_request w :: pending_screen w /\
    child (step NODE_ENV w e) = None /\
    displayed_matches (step NODE_ENV w e) = None /\
    displayed_error (step NODE_ENV w e) = None /\
    option_map Entry.loading_text (view (step NODE_ENV w e))
    = Some (Some (lit "Loading...")) /\
    option_map Entry.no_matches (view (step NODE_ENV w e)) = Some false.
Proof.
  intros w e Ha Hl Hb He.
  rewrite (dashboard_step_submits NODE_ENV w e Ha Hl He).
  rewrite (dashboard_enter NODE_ENV w Ha Hb).
  repeat split.
Qed.

(** X2: In [App.js], while a search is loading a click on Scan does
    nothing, but Enter with a query that is not blank sends a second
    [POST /v1/screen] and leaves both requests pending. *)
Theorem X2_dashboard_enter_submits_while_loading :
  forall w : DWorld,
    alive w = true ->
    DashboardApp.loading (app w) = true ->
    blank (DashboardApp.searchTerm (app w)) = false ->
    step NODE_ENV w ClickScan = w /\
    sent (step NODE_ENV w (Key (lit "Enter")))
    = sent w ++
      [(next_request w,
        {| method := POST;
           url := API_BASE_URL NODE_ENV ++ lit "/v1/screen";
           entity_name := Some (DashboardApp.searchTerm (app w)) |})] /\
    pending_screen (step NODE_ENV w (Key (lit "Enter")))
    = next_request w :: pending_screen w.
Proof.
  intros w Ha Hl Hb. split.
  - now apply dashboard_scan_disabled_while_loading.
  - rewrite (dashboard_enter NODE_ENV w Ha Hb). split; reflexivity.
Qed.




(** X5: In [App.js], with two searches pending, the first response to
    arrive turns loading off and re-enables the Scan button although the other
    request is still pending. *)
Theorem X5_dashboard_first_response_ends_loading :
  forall (w : DWorld) (rid rid' : nat) (o : Outcome ScreenData),
    alive w = true ->
    In rid (pending_screen w) -> In rid' (pending_screen w) ->
    rid' <> rid ->
    DashboardApp.loading (app (step NODE_ENV w (ScreenSettled rid o))) = false /\
    option_map Entry.button_disabled
      (view (step NODE_ENV w (ScreenSettled rid o))) = Some false /\
    option_map Entry.loading_text
      (view (step NODE_ENV w (ScreenSettled rid o))) = Some None /\
    In rid' (pending_screen (step NODE_ENV w (ScreenSettled rid o))).
Proof.
  intros w rid rid' o Ha Hin Hin' Hne.
  rewrite (dashboard_screen_settled NODE_ENV w rid o Ha Hin).
  set (w1 := commit _).
  assert (Ha1 : alive w1 = true)
    by (unfold w1; now rewrite dashboard_commit_alive).
  assert (Hl : DashboardApp.loading (app w1) = false).
  { unfold w1. rewrite commit_app. cbn [app].
    unfold DashboardApp.handleSearch_settled.
    now destruct (axios_await o). }
  assert (Hp : In rid' (pending_screen w1)).
  { unfold w1. rewrite commit_pending_screen. cbn [pending_screen].
    now apply In_remove_nat. }
  clearbody w1. conjuncts.
  - exact Hl.
  - rewrite (dashboard_view w1 Ha1). cbn. now rewrite Hl.
  - rewrite (dashboard_view w1 Ha1). cbn. now rewrite Hl.
  - exact Hp.
Qed.

End DashboardFlow.

(** ** What every event does to the requests and to the mounted child *)

Section EveryEvent.

Import Runtime Observe.

Variable C : Entry.Component.
Variable NODE_ENV : Env.

Implicit Types (w : World C) (e : Event).

(** X6: Whatever the entry component, an event sends at most one request,
    numbered with the page's next request number, and only a submitting event
    (Enter, a click on Scan) or a click on a result card sends one: typing,
    other keys and arriving responses, failures included, send nothing, so a
    failed request is never repeated by the page itself. *)
Theorem X6_only_intents_send_requests :
  forall w e,
    sent (step NODE_ENV w e) = sent w \/
    (exists req,
        sent (step NODE_ENV w e) = sent w ++ [(next_request w, req)] /\
        next_request (step NODE_ENV w e) = S (next_request w) /\
        (submits e = true \/ is_click e = true)).
Proof.
  intros w e.
  assert (Hsub : forall e', submits e' = true ->
            sent (submit NODE_ENV w) = sent w \/
            (exists req,
                sent (submit NODE_ENV w) = sent w ++ [(next_request w, req)] /\
                next_request (submit NODE_ENV w) = S (next_request w) /\
                (submits e' = true \/ is_click e' = true))).
  { intros e' He'. unfold submit.
    destruct (Entry.handleSearch C NODE_ENV (app w)) as [[st req]|];
      [|now left].
    right. exists req. rewrite commit_sent, commit_next_request. auto. }
  unfold step. destruct (alive w); [|now left].
  destruct e.
  - left. now rewrite commit_sent.
  - destruct (JsString.eqb key (lit "Enter")) eqn:E; [|now left].
    apply (Hsub (Key key)). exact E.
  - destruct (view w) as [v|]; [|now left].
    destruct (Entry.button_disabled v); [now left|].
    now apply (Hsub ClickScan).
  - unfold select. destruct (mounted w) as [[[inst l] dst]|]; [|now left].
    destruct (results_section w) as [sv|]; [|now left].
    destruct (nth_error (SearchResults.cards sv) n) as [c|]; [|now left].
    right. cbn. eexists. split; [reflexivity|]. auto.
  - left. unfold screen_settled.
    destruct (existsb (Nat.eqb rid) (pending_screen w)); [|reflexivity].
    now rewrite commit_sent.
  - left. unfold detail_settled.
    now destruct (owner_of rid (pending_detail w)).
Qed.

Lemma commit_idempotent w : commit (commit w) = commit w.
Proof.
  assert (H : forall w1, app w1 = app w ->
            match Entry.App C (app w) with
            | Entry.Throws => alive w1 = false /\ child w1 = None
            | Entry.Renders v =>
                match Entry.search_results v with
                | Some _ => exists c, child w1 = Some c
                | None => child w1 = None
                end
            end -> commit w1 = w1).
  { intros w1 Happ Hw1.
    destruct w1 as [al st ch ni nr ps pd sn]. cbn in *. subst st.
    unfold commit. cbn.
    destruct (Entry.App C (app w)) as [|v].
    - destruct Hw1 as [-> ->]. reflexivity.
    - destruct (Entry.search_results v).
      + destruct Hw1 as [c ->]. reflexivity.
      + subst ch. reflexivity. }
  apply H; [apply commit_app|]. unfold commit.
  destruct (Entry.App C (app w)) as [|v]; [now split|].
  destruct (Entry.search_results v); [|reflexivity].
  destruct (child w) as [c|] eqn:Ec; cbn; eauto.
Qed.

Lemma settled_renders w :
  settled w -> alive w = true ->
  exists v, Entry.App C (app w) = Entry.Renders v /\
            (Entry.search_results v = None -> child w = None) /\
            (forall l, Entry.search_results v = Some l ->
                       exists c, child w = Some c).
Proof.
  unfold settled, commit. intros Hs Ha.
  destruct (Entry.App C (app w)) as [|v].
  - apply (f_equal (@alive C)) in Hs. cbn in Hs. congruence.
  - exists v. split; [reflexivity|].
    destruct (Entry.search_results v) as [l|].
    + split; [discriminate|]. intros l' _.
      destruct (child w) as [c|]; [eauto|].
      apply (f_equal (@next_instance C)) in Hs. cbn in Hs. lia.
    + split; [|discriminate]. intros _.
      apply (f_equal (@child C)) in Hs. cbn in Hs. congruence.
Qed.

(** A state change of the child alone keeps a page settled. *)
Lemma settled_child_state w w' inst dst dst' :
  settled w -> alive w = true ->
  child w = Some (inst, dst) ->
  w' = {| alive := alive w; app := app w; child := Some (inst, dst');
          next_instance := next_instance w;
          next_request := next_request w';
          pending_screen := pending_screen w';
          pending_detail := pending_detail w';
          sent := sent w' |} ->
  settled w'.
Proof.
  intros Hs Ha Hc ->. destruct (settled_renders w Hs Ha) as (v & Hv & Hn & Hm).
  unfold settled, commit. cbn. rewrite Hv.
  destruct (Entry.search_results v) as [l|]; [reflexivity|].
  rewrite Hn in Hc; [discriminate | reflexivity].
Qed.

Lemma step_settled w e : settled w -> settled (step NODE_ENV w e).
Proof.
  intros Hs. unfold step. destruct (alive w) eqn:Ha; [|exact Hs].
  assert (Hsub : settled (submit NODE_ENV w)).
  { unfold submit.
    destruct (Entry.handleSearch C NODE_ENV (app w)) as [[st req]|];
      [|exact Hs].
    apply commit_idempotent. }
  destruct e.
  - apply commit_idempotent.
  - destruct (JsString.eqb key (lit "Enter")); [exact Hsub | exact Hs].
  - destruct (view w) as [v|]; [|exact Hs].
    destruct (Entry.button_disabled v); [exact Hs | exact Hsub].
  - unfold select. destruct (mounted w) as [[[inst l] dst]|] eqn:Hm;
      [|exact Hs].
    destruct (results_section w) as [sv|]; [|exact Hs].
    destruct (nth_error (SearchResults.cards sv) n) as [c|]; [|exact Hs].
    pose proof (mounted_child C w inst l dst Hm) as Hc.
    cbn. eapply (settled_child_state w _ inst dst _ Hs Ha Hc).
    rewrite Ha. reflexivity.
  - unfold screen_settled.
    destruct (existsb (Nat.eqb rid) (pending_screen w)); [|exact Hs].
    apply commit_idempotent.
  - unfold detail_settled.
    destruct (owner_of rid (pending_detail w)) as [owner|]; [|exact Hs].
    destruct (child w) as [[inst dst]|] eqn:Hc.
    + destruct (Nat.eqb inst owner);
        eapply (settled_child_state w _ inst dst _ Hs Ha Hc);
        rewrite Ha; reflexivity.
    + destruct (settled_renders w Hs Ha) as (v & Hv & Hn & Hm).
      unfold settled, commit. cbn. rewrite Hv.
      destruct (Entry.search_results v) as [l|]; [|reflexivity].
      destruct (Hm l eq_refl) as [c Hc']. congruence.
Qed.

Lemma reached_settled es : settled (reached C NODE_ENV es).
Proof.
  unfold reached. assert (H : settled (start C)) by apply commit_idempotent.
  revert H. generalize (start C). induction es as [|e es IH]; intros w Hw.
  - exact Hw.
  - cbn. apply IH. now apply step_settled.
Qed.

End EveryEvent.

(** ** [App.js]: every page reached from the start *)

Section DashboardReached.

Import Runtime Observe.

Variable NODE_ENV : Env.

Implicit Types (w : DWorld).

Lemma dashboard_step_alive w e : alive (step NODE_ENV w e) = alive w.
Proof.
  unfold step. destruct (alive w) eqn:Ha; [|exact Ha].
  assert (Hsub : alive (submit NODE_ENV w) = true).
  { unfold submit.
    destruct (Entry.handleSearch _ NODE_ENV (app w)) as [[st req]|];
      [|exact Ha].
    rewrite dashboard_commit_alive. exact Ha. }
  destruct e.
  - rewrite dashboard_commit_alive. exact Ha.
  - destruct (JsString.eqb key (lit "Enter")); [exact Hsub | exact Ha].
  - destruct (view w) as [v|]; [|exact Ha].
    destruct (Entry.button_disabled v); [exact Ha | exact Hsub].
  - unfold select. destruct (mounted w) as [[[inst l] dst]|]; [|exact Ha].
    destruct (results_section w) as [sv|]; [|exact Ha].
    destruct (nth_error (SearchResults.cards sv) n) as [c|]; [|exact Ha].
    cbn. exact Ha.
  - unfold screen_settled.
    destruct (existsb (Nat.eqb rid) (pending_screen w)); [|exact Ha].
    rewrite dashboard_commit_alive. exact Ha.
  - unfold detail_settled.
    destruct (owner_of rid (pending_detail w)); exact Ha.
Qed.

(** The setters keep [loading] and a non-empty [error] apart. *)
Lemma dashboard_step_loading_error w e :
  (DashboardApp.loading (app w) = true -> DashboardApp.error (app w) = []) ->
  DashboardApp.loading (app (step NODE_ENV w e)) = true ->
  DashboardApp.error (app (step NODE_ENV w e)) = [].
Proof.
  intros Hinv. unfold step. destruct (alive w); [|exact Hinv].
  assert (Hsub : DashboardApp.loading (app (submit NODE_ENV w)) = true ->
                 DashboardApp.error (app (submit NODE_ENV w)) = []).
  { unfold submit. cbn [Entry.handleSearch DashboardApp.component].
    unfold DashboardApp.handleSearch.
    destruct (is_empty (trim (DashboardApp.searchTerm (app w))));
      [exact Hinv|].
    rewrite commit_app. reflexivity. }
  destruct e.
  - rewrite commit_app. exact Hinv.
  - destruct (JsString.eqb key (lit "Enter")); [exact Hsub | exact Hinv].
  - destruct (view w) as [v|]; [|exact Hinv].
    destruct (Entry.button_disabled v); [exact Hinv | exact Hsub].
  - unfold select. destruct (mounted w) as [[[inst l] dst]|]; [|exact Hinv].
    destruct (results_section w) as [sv|]; [|exact Hinv].
    destruct (nth_error (SearchResults.cards sv) n) as [c|]; [|exact Hinv].
    cbn. exact Hinv.
  - unfold screen_settled.
    destruct (existsb (Nat.eqb rid) (pending_screen w)); [|exact Hinv].
    rewrite commit_app. cbn [app Entry.handleSearch_settled
                               DashboardApp.component].
    unfold DashboardApp.handleSearch_settled.
    destruct (axios_await o); cbn; discriminate.
  - unfold detail_settled.
    destruct (owner_of rid (pending_detail w)); exact Hinv.
Qed.

Lemma dashboard_reached es :
  alive (reached DashboardApp.component NODE_ENV es) = true /\
  (DashboardApp.loading (app (reached DashboardApp.component NODE_ENV es))
   = true ->
   DashboardApp.error (app (reached DashboardApp.component NODE_ENV es))
   = []).
Proof.
  unfold reached.
  assert (H : alive (start DashboardApp.component) = true /\
              (DashboardApp.loading (app (start DashboardApp.component))
               = true ->
               DashboardApp.error (app (start DashboardApp.component)) = []))
    by (split; [reflexivity | discriminate]).
  revert H. generalize (start DashboardApp.component).
  induction es as [|e es IH]; intros w Hw; [exact Hw|].
  cbn. apply IH. destruct Hw as [Ha Hinv]. split.
  - now rewrite dashboard_step_alive.
  - now apply dashboard_step_loading_error.
Qed.

(** X7: On every page of [App.js] reached from the start, at most one of
    the loading line, the error line, the no-matches line and the result list
    is rendered, and exactly one of them once a search has been submitted:
    the list is never shown next to an error or while loading. *)
Theorem X7_dashboard_shows_one_section :
  forall es : list Event,
    exists v,
      view (reached DashboardApp.component NODE_ENV es) = Some v /\
      shown_sections v <= 1 /\
      (DashboardApp.searched
         (app (reached DashboardApp.component NODE_ENV es)) = true ->
       shown_sections v = 1).
Proof.
  intros es. destruct (dashboard_reached es) as [Ha Hinv].
  set (w := reached DashboardApp.component NODE_ENV es) in *.
  rewrite (dashboard_view w Ha). eexists. split; [reflexivity|].
  unfold shown_sections. cbn.
  destruct (DashboardApp.loading (app w)).
  - rewrite (Hinv eq_refl). cbn. split; [lia | reflexivity].
  - destruct (DashboardApp.error (app w)); cbn.
    + destruct (DashboardApp.results (app w)); cbn.
      * destruct (DashboardApp.searched (app w)); cbn;
          split; try lia; discriminate.
      * destruct (DashboardApp.searched (app w)); cbn;
          split; try lia; reflexivity.
    + split; [lia | reflexivity].
Qed.

(** X8: On every page of [App.js] reached from the start, typing into the
    input changes the input value and nothing else: no request is sent, the
    held results, error and flags stay, and [SearchResults] stays mounted
    with its selection and its pending detail requests. *)
Theorem X8_dashboard_typing_changes_only_the_input :
  forall (es : list Event) (value : jsstring),
    step NODE_ENV (reached DashboardApp.component NODE_ENV es) (Change value)
    = with_app (C := DashboardApp.component)
        (DashboardApp.setSearchTerm value
           (app (reached DashboardApp.component NODE_ENV es)))
        (reached DashboardApp.component NODE_ENV es).
Proof.
  intros es value. destruct (dashboard_reached es) as [Ha _].
  pose proof (reached_settled DashboardApp.component NODE_ENV es) as Hs.
  set (w := reached DashboardApp.component NODE_ENV es) in *.
  destruct (settled_renders _ w Hs Ha) as (v & Hv & Hn & Hm).
  cbn in Hv. injection Hv as <-. cbn in Hn, Hm.
  rewrite (dashboard_change NODE_ENV w value Ha).
  unfold commit. cbn.
  destruct (negb (DashboardApp.loading (app w))
            && is_empty (DashboardApp.error (app w))
            && nonempty (DashboardApp.results (app w))).
  - destruct (Hm _ eq_refl) as [c Hc]. now rewrite Hc.
  - unfold with_child, with_app. cbn. now rewrite (Hn eq_refl).
Qed.

(** X9: Every request a page of [App.js] has sent, search or detail, goes
    to the address resolved from [NODE_ENV] when the script was loaded. *)
Theorem X9_dashboard_requests_go_to_the_resolved_address :
  forall es : list Event,
    Forall (fun r => exists path,
                url (snd r) = API_BASE_URL NODE_ENV ++ path)
      (sent (reached DashboardApp.component NODE_ENV es)).
Proof.
  intros es. unfold reached.
  assert (H : Forall (fun r => exists path,
                          url (snd r) = API_BASE_URL NODE_ENV ++ path)
                (sent (start DashboardApp.component))) by constructor.
  revert H. generalize (start DashboardApp.component).
  induction es as [|e es IH]; intros w Hw; [exact Hw|].
  cbn. apply IH.
  destruct (dashboard_requests_use_base_url NODE_ENV w e)
    as (added & -> & Hadded).
  apply Forall_app. now split.
Qed.

(** X10: On a page of [App.js] reached from the start on which
    [SearchResults] is mounted, submitting a query that is not blank removes
    the detail view at once, and as long as no card is clicked no later event
    brings a profile back: a detail response still on its way is dropped. *)
Theorem X10_dashboard_new_search_drops_the_profile :
  forall (es0 : list Event) (e : Event) (es : list Event)
         (inst : nat) (l : list Match) (dst : SearchResults.State),
    mounted (reached DashboardApp.component NODE_ENV es0)
      = Some (inst, l, dst) ->
    blank (DashboardApp.searchTerm
             (app (reached DashboardApp.component NODE_ENV es0))) = false ->
    submits e = true ->
    forallb (fun e' => negb (is_click e')) es = true ->
    results_section
      (step NODE_ENV (reached DashboardApp.component NODE_ENV es0) e) = None /\
    held_profile
      (run NODE_ENV
         (step NODE_ENV (reached DashboardApp.component NODE_ENV es0) e) es)
    = None.
Proof.
  intros es0 e es inst l dst Hm Hb He Hes.
  destruct (dashboard_new_search_discards_profile NODE_ENV
              (reached DashboardApp.component NODE_ENV es0)
              e es inst l dst) as (H1 & _ & H3); trivial.
  - apply run_owners_known, start_owners_known.
  - now split.
Qed.

End DashboardReached.

(** ** [SearchResults.jsx]: the detail loader *)

Section DetailLoader.

Import Runtime.

Variable C : Entry.Component.
Variable NODE_ENV : Env.

Implicit Types (w : World C).

Lemma detail_settled_owner w rid (o : Outcome EntityProfile) inst dst :
  alive w = true ->
  child w = Some (inst, dst) ->
  owner_of rid (pending_detail w) = Some inst ->
  step NODE_ENV w (DetailSettled rid o)
  = {| alive := true; app := app w;
       child := Some (inst, SearchResults.handleResultClick_settled o dst);
       next_instance := next_instance w;
       next_request := next_request w;
       pending_screen := pending_screen w;
       pending_detail := remove_key rid (pending_detail w);
       sent := sent w |}.
Proof.
  intros Ha Hc Ho. unfold step, detail_settled.
  rewrite Ha, Ho, Hc, Nat.eqb_refl. reflexivity.
Qed.

Lemma results_section_mounted w inst m l dst :
  mounted w = Some (inst, m :: l, dst) ->
  results_section w
  = Some {| SearchResults.heading := lit "Results";
            SearchResults.cards := List.map SearchResults.card (m :: l);
            SearchResults.loading_details := SearchResults.loading dst;
            SearchResults.error_text :=
              SearchResults.shown (SearchResults.error dst);
            SearchResults.profile :=
              match SearchResults.selectedEntity dst with
              | Some e => Some (EntityProfilePage.EntityProfilePage (Some e))
              | None => None
              end |}.
Proof. unfold results_section. now intros ->. Qed.

Lemma nth_error_nonempty {A : Type} (l : list A) n x :
  nth_error l n = Some x -> exists y l', l = y :: l'.
Proof. destruct l; [destruct n; discriminate | eauto]. Qed.

(** X11: A click on a card whose request succeeds: while the request is
    pending the list and the profile shown before stay, the loading line is
    shown and an earlier error line is gone; once the response arrives the
    profile shown is the one of the response, rendered by
    [EntityProfilePage], with the same cards and the entry component's state
    untouched. *)
Theorem X11_selection_success_shows_the_profile :
  forall w inst l dst n m (o : Outcome EntityProfile) (data : EntityProfile),
    mounted w = Some (inst, l, dst) ->
    nth_error l n = Some m ->
    axios_await o = Some data ->
    let w1 := step NODE_ENV w (ClickCard n) in
    let w2 := step NODE_ENV w1 (DetailSettled (next_request w) o) in
    option_map SearchResults.loading_details (results_section w1)
      = Some true /\
    option_map SearchResults.error_text (results_section w1) = Some None /\
    option_map SearchResults.profile (results_section w1)
      = option_map SearchResults.profile (results_section w) /\
    option_map SearchResults.profile (results_section w2)
      = Some (Some (EntityProfilePage.EntityProfilePage (Some data))) /\
    option_map SearchResults.error_text (results_section w2) = Some None /\
    option_map SearchResults.loading_details (results_section w2)
      = Some false /\
    option_map SearchResults.cards (results_section w2)
      = option_map SearchResults.cards (results_section w) /\
    app w2 = app w.
Proof.
  intros w inst l dst n m o data Hm Hn Ho w1 w2.
  pose proof (mounted_alive C w _ Hm) as Ha.
  destruct (nth_error_nonempty l n m Hn) as (m0 & l0 & ->).
  assert (Hw1 : w1 = _) by exact (select_card C NODE_ENV w inst _ dst n m Hm Hn).
  assert (Hm1 : mounted w1
                = Some (inst, m0 :: l0,
                        {| SearchResults.selectedEntity :=
                             SearchResults.selectedEntity dst;
                           SearchResults.loading := true;
                           SearchResults.error := None |})).
  { apply (mounted_with_child C w w1 inst _ dst _ _ Hm);
      rewrite Hw1; reflexivity. }
  assert (Ha1 : alive w1 = true) by (rewrite Hw1; exact Ha).
  assert (Hc1 : child w1
                = Some (inst,
                        {| SearchResults.selectedEntity :=
                             SearchResults.selectedEntity dst;
                           SearchResults.loading := true;
                           SearchResults.error := None |}))
    by (rewrite Hw1; reflexivity).
  assert (Hp1 : owner_of (next_request w) (pending_detail w1) = Some inst)
    by (rewrite Hw1; apply owner_of_head).
  pose proof (detail_settled_owner w1 _ o inst _ Ha1 Hc1 Hp1) as Hw2.
  fold w2 in Hw2.
  assert (Hm2 : mounted w2
                = Some (inst, m0 :: l0,
                        {| SearchResults.selectedEntity := Some data;
                           SearchResults.loading := false;
                           SearchResults.error := None |})).
  { apply (mounted_with_child C w w2 inst _ dst _ _ Hm).
    - rewrite Hw2. cbn. now rewrite Ha.
    - rewrite Hw2. cbn. now rewrite Hw1.
    - rewrite Hw2. cbn [child].
      unfold SearchResults.handleResultClick_settled. rewrite Ho.
      reflexivity. }
  rewrite (results_section_mounted w inst m0 l0 _ Hm).
  rewrite (results_section_mounted w1 inst m0 l0 _ Hm1).
  rewrite (results_section_mounted w2 inst m0 l0 _ Hm2).
  conjuncts; try reflexivity.
  rewrite Hw2. cbn [app]. rewrite Hw1. reflexivity.
Qed.

Lemma eqb_succ_false n : Nat.eqb (S n) n = false.
Proof. apply Nat.eqb_neq. lia. Qed.

Lemma eqb_pred_false n : Nat.eqb n (S n) = false.
Proof. apply Nat.eqb_neq. lia. Qed.

(** X12: With two selections pending on the same list, both answered with
    a profile, the profile shown once both responses have arrived is the one
    delivered last, whichever card was clicked last; the first response to
    arrive already turns the loading line off. *)
Theorem X12_last_detail_response_wins :
  forall w inst l dst n1 n2 m1 m2 (o1 o2 : Outcome EntityProfile)
         (p1 p2 : EntityProfile),
    mounted w = Some (inst, l, dst) ->
    nth_error l n1 = Some m1 -> nth_error l n2 = Some m2 ->
    axios_await o1 = Some p1 -> axios_await o2 = Some p2 ->
    let r1 := next_request w in
    let r2 := S (next_request w) in
    let w2 := run NODE_ENV w [ClickCard n1; ClickCard n2] in
    List.map (fun r => url (snd r)) (sent w2)
    = List.map (fun r => url (snd r)) (sent w) ++
      [API_BASE_URL NODE_ENV ++ lit "/v1/entity/"
         ++ ToString (SearchResults.identifier m1);
       API_BASE_URL NODE_ENV ++ lit "/v1/entity/"
         ++ ToString (SearchResults.identifier m2)] /\
    held_profile (run NODE_ENV w2 [DetailSettled r1 o1; DetailSettled r2 o2])
      = Some p2 /\
    held_profile (run NODE_ENV w2 [DetailSettled r2 o2; DetailSettled r1 o1])
      = Some p1 /\
    option_map SearchResults.loading_details
      (results_section (step NODE_ENV w2 (DetailSettled r1 o1))) = Some false.
Proof.
  intros w inst l dst n1 n2 m1 m2 o1 o2 p1 p2 Hm Hn1 Hn2 Ho1 Ho2 r1 r2 w2.
  pose proof (mounted_alive C w _ Hm) as Ha.
  destruct (nth_error_nonempty l n1 m1 Hn1) as (m0 & l0 & ->).
  set (d1 := {| SearchResults.selectedEntity :=
                  SearchResults.selectedEntity dst;
                SearchResults.loading := true;
                SearchResults.error := None |}).
  assert (Hw2 : w2 =
    {| alive := alive w; app := app w; child := Some (inst, d1);
       next_instance := next_instance w;
       next_request := S r2;
       pending_screen := pending_screen w;
       pending_detail := (r2, inst) :: (r1, inst) :: pending_detail w;
       sent := (sent w ++
                [(r1, snd (SearchResults.handleResultClick NODE_ENV
                             (SearchResults.identifier m1) dst))]) ++
               [(r2, snd (SearchResults.handleResultClick NODE_ENV
                            (SearchResults.identifier m2) d1))] |}).
  { unfold w2, run. cbn [fold_left].
    rewrite (select_card C NODE_ENV w inst _ dst n1 m1 Hm Hn1).
    set (w1 := Build_World _ _ _ _ _ _ _ _ _).
    assert (Hm1 : mounted w1 = Some (inst, m0 :: l0, d1))
      by (apply (mounted_with_child C w w1 inst _ dst _ _ Hm); reflexivity).
    rewrite (select_card C NODE_ENV w1 inst _ d1 n2 m2 Hm1 Hn2).
    reflexivity. }
  assert (Hstep : forall (wa : World C) rid o d pd,
             alive wa = true -> child wa = Some (inst, d) ->
             pending_detail wa = pd ->
             owner_of rid pd = Some inst ->
             alive (step NODE_ENV wa (DetailSettled rid o)) = true /\
             app (step NODE_ENV wa (DetailSettled rid o)) = app wa /\
             child (step NODE_ENV wa (DetailSettled rid o))
             = Some (inst, SearchResults.handleResultClick_settled o d) /\
             pending_detail (step NODE_ENV wa (DetailSettled rid o))
             = remove_key rid pd).
  { intros wa rid o d pd Hal Hch Hpd Hown. subst pd.
    rewrite (detail_settled_owner wa rid o inst d Hal Hch Hown).
    now conjuncts. }
  assert (Ha2 : alive w2 = true) by (rewrite Hw2; exact Ha).
  assert (Hc2 : child w2 = Some (inst, d1)) by now rewrite Hw2.
  assert (Hp2 : pending_detail w2
                = (r2, inst) :: (r1, inst) :: pending_detail w)
    by now rewrite Hw2.
  conjuncts.
  - rewrite Hw2. cbn [sent]. rewrite !map_app. cbn. now rewrite <- app_assoc.
  - unfold run. cbn [fold_left].
    destruct (Hstep w2 r1 o1 d1 _ Ha2 Hc2 Hp2) as (Ha3 & _ & Hc3 & Hp3).
    { unfold owner_of, r1, r2. cbn [find fst].
      now rewrite eqb_succ_false, Nat.eqb_refl. }
    destruct (Hstep _ r2 o2 _ _ Ha3 Hc3 Hp3) as (_ & _ & Hc4 & _).
    { unfold remove_key, owner_of, r1, r2. cbn [filter find fst].
      rewrite eqb_succ_false, Nat.eqb_refl. cbn [negb find fst].
      now rewrite Nat.eqb_refl. }
    unfold held_profile. rewrite Hc4.
    unfold SearchResults.handleResultClick_settled. now rewrite Ho2.
  - unfold run. cbn [fold_left].
    destruct (Hstep w2 r2 o2 d1 _ Ha2 Hc2 Hp2) as (Ha3 & _ & Hc3 & Hp3).
    { apply owner_of_head. }
    destruct (Hstep _ r1 o1 _ _ Ha3 Hc3 Hp3) as (_ & _ & Hc4 & _).
    { unfold remove_key, owner_of, r1, r2. cbn [filter find fst].
      rewrite Nat.eqb_refl, eqb_pred_false. cbn [negb find fst].
      now rewrite Nat.eqb_refl. }
    unfold held_profile. rewrite Hc4.
    unfold SearchResults.handleResultClick_settled. now rewrite Ho1.
  - destruct (Hstep w2 r1 o1 d1 _ Ha2 Hc2 Hp2) as (Ha3 & Happ3 & Hc3 & _).
    { unfold owner_of, r1, r2. cbn [find fst].
      now rewrite eqb_succ_false, Nat.eqb_refl. }
    set (w3 := step NODE_ENV w2 (DetailSettled r1 o1)) in *.
    assert (Hm2 : mounted w2 = Some (inst, m0 :: l0, d1)).
    { apply (mounted_with_child C w w2 inst _ dst _ _ Hm);
        rewrite Hw2; reflexivity. }
    assert (Hm3 : mounted w3
                  = Some (inst, m0 :: l0,
                          SearchResults.handleResultClick_settled o1 d1)).
    { apply (mounted_with_child C w2 w3 inst _ d1 _ _ Hm2); trivial.
      now rewrite Ha3. }
    rewrite (results_section_mounted w3 inst m0 l0 _ Hm3). cbn.
    unfold SearchResults.handleResultClick_settled. now rewrite Ho1.
Qed.

(** X13: A detail response of either kind, whenever it arrives and
    whichever instance asked for it, changes neither the entry component's
    state nor the match list and error line it displays, and sends no
    request. *)
Theorem X13_detail_response_leaves_the_search_alone :
  forall w (rid : nat) (o : Outcome EntityProfile),
    app (step NODE_ENV w (DetailSettled rid o)) = app w /\
    displayed_matches (step NODE_ENV w (DetailSettled rid o))
    = displayed_matches w /\
    displayed_error (step NODE_ENV w (DetailSettled rid o))
    = displayed_error w /\
    sent (step NODE_ENV w (DetailSettled rid o)) = sent w /\
    pending_screen (step NODE_ENV w (DetailSettled rid o)) = pending_screen w.
Proof.
  intros w rid o.
  destruct (detail_response_frame C NODE_ENV w rid o) as (H1 & H2 & H3 & H4).
  conjuncts; trivial.
  unfold step, detail_settled. destruct (alive w); [|reflexivity].
  now destruct (owner_of rid (pending_detail w)).
Qed.

End DetailLoader.

(** ** [EntityProfilePage.jsx] under [SearchResults] *)

(** X14: Whatever its hook state, the profile part rendered by
    [SearchResults] is absent (nothing selected) or a full profile of the
    held entity, never the [Loading...] placeholder of [EntityProfilePage];
    in that profile the aliases and the sanctions are listed in the order
    received, one line [program - sanctioning_body] per sanction, and a
    missing or empty field gives the placeholder sentence, never an empty
    list. *)
Theorem X14_profile_is_full_or_absent :
  forall (m : Match) (l : list Match) (st : SearchResults.State),
    option_map SearchResults.profile
      (SearchResults.SearchResults (SearchResults.ResultsArray (m :: l)) st)
    = Some
        (option_map
           (fun e =>
              EntityProfilePage.Profile
                (EntityPayload.name e) (EntityPayload.category e)
                (EntityPayload.source e)
                (match EntityPayload.aliases e with
                 | Some (a :: rest) => EntityProfilePage.Items (a :: rest)
                 | _ => EntityProfilePage.Placeholder
                          (lit "No known aliases.")
                 end)
                (match EntityPayload.sanctions e with
                 | Some (s :: rest) =>
                     EntityProfilePage.Items
                       (List.map
                          (fun x => EntityPayload.program x ++ lit " - "
                                    ++ EntityPayload.sanctioning_body x)
                          (s :: rest))
                 | _ => EntityProfilePage.Placeholder
                          (lit "No sanctions details available.")
                 end))
           (SearchResults.selectedEntity st)).
Proof.
  intros m l st. cbn.
  destruct (SearchResults.selectedEntity st) as [e|]; [|reflexivity].
  cbn. unfold EntityProfilePage.list_or.
  destruct (EntityPayload.aliases e) as [[|a rest]|];
    destruct (EntityPayload.sanctions e) as [[|s rest']|]; reflexivity.
Qed.

(** ** [index.html] *)

Lemma trimStart_idempotent (s : jsstring) :
  trimStart (trimStart s) = trimStart s.
Proof.
  induction s as [|c s IH]; [reflexivity|]. cbn.
  destruct (is_ws c) eqn:E; [exact IH|]. cbn. now rewrite E.
Qed.

Lemma trimStart_snoc (s : jsstring) (c : N) :
  is_ws c = false -> trimStart (s ++ [c]) = trimStart s ++ [c].
Proof.
  intros Hc. induction s as [|a s IH]; cbn.
  - now rewrite Hc.
  - destruct (is_ws a); [exact IH | reflexivity].
Qed.

Lemma trimEnd_cons (c : N) (s : jsstring) :
  is_ws c = false -> trimEnd (c :: s) = c :: trimEnd s.
Proof.
  intros Hc. unfold trimEnd. cbn [rev].
  rewrite (trimStart_snoc _ c Hc), rev_app_distr. reflexivity.
Qed.

Lemma trimEnd_idempotent (s : jsstring) : trimEnd (trimEnd s) = trimEnd s.
Proof.
  unfold trimEnd. rewrite rev_involutive, trimStart_idempotent. reflexivity.
Qed.

Lemma trimStart_trimEnd (s : jsstring) :
  trimStart (trimEnd (trimStart s)) = trimEnd (trimStart s).
Proof.
  induction s as [|c s IH]; [reflexivity|]. cbn [trimStart].
  destruct (is_ws c) eqn:E; [exact IH|].
  rewrite (trimEnd_cons c s E). cbn. now rewrite E.
Qed.

(** What any of the submit paths sends after trimming is itself trimmed. *)
Lemma trim_idempotent (s : jsstring) : trim (trim s) = trim s.
Proof.
  unfold trim. rewrite trimStart_trimEnd. apply trimEnd_idempotent.
Qed.

(** X15: On [index.html], [performScreen] with an input that is not blank
    raises no alert, replaces the results area by the loading text and sends
    one [POST] to the relative address [/v1/screen] whose [entity_name] is
    the trimmed input: a non-empty text that trimming leaves unchanged,
    whatever white space surrounded what was typed. *)
Theorem X15_index_posts_a_trimmed_name :
  forall p : IndexHtml.Page,
    blank (IndexHtml.entity_name_value p) = false ->
    exists name,
      IndexHtml.performScreen p
      = ({| IndexHtml.entity_name_value := IndexHtml.entity_name_value p;
            IndexHtml.resultsDiv := IndexHtml.LoadingText;
            IndexHtml.alerts := IndexHtml.alerts p |},
         Some {| method := POST; url := lit "/v1/screen";
                 entity_name := Some name |}) /\
      name = trim (IndexHtml.entity_name_value p) /\
      trim name = name /\
      blank name = false.
Proof.
  intros p Hb. exists (trim (IndexHtml.entity_name_value p)).
  pose proof Hb as Ht. apply trim_nonempty_iff_not_blank in Ht.
  conjuncts.
  - unfold IndexHtml.performScreen. now rewrite Ht.
  - reflexivity.
  - apply trim_idempotent.
  - apply trim_nonempty_iff_not_blank. now rewrite trim_idempotent.
Qed.

(** X16: On [index.html], a settled request always replaces the whole
    results area: what it shows afterwards depends on the response alone, not
    on what was shown before, it is never the loading text, and the input and
    the alerts are left as they were. *)
Theorem X16_index_response_replaces_the_results :
  forall (o : Outcome ScreenData) (p p' : IndexHtml.Page),
    IndexHtml.resultsDiv (IndexHtml.performScreen_settled o p)
    = IndexHtml.resultsDiv (IndexHtml.performScreen_settled o p') /\
    IndexHtml.resultsDiv (IndexHtml.performScreen_settled o p)
    <> IndexHtml.LoadingText /\
    IndexHtml.resultsDiv (IndexHtml.performScreen_settled o p)
    <> IndexHtml.Untouched /\
    IndexHtml.entity_name_value (IndexHtml.performScreen_settled o p)
    = IndexHtml.entity_name_value p /\
    IndexHtml.alerts (IndexHtml.performScreen_settled o p)
    = IndexHtml.alerts p.
Proof.
  intros o p p'. unfold IndexHtml.performScreen_settled.
  destruct o as [|status data]; cbn.
  - conjuncts; try reflexivity; discriminate.
  - destruct (ok status); cbn;
      [|conjuncts; try reflexivity; discriminate].
    destruct (Z.eqb (total_matches data) 0);
      [conjuncts; try reflexivity; discriminate|].
    destruct (matches data) as [ms|];
      [|conjuncts; try reflexivity; discriminate].
    destruct (IndexHtml.cards ms);
      conjuncts; try reflexivity; discriminate.
Qed.

Lemma index_cards_fields (ms : list Match) : forall cs,
  IndexHtml.cards ms = Some cs ->
  List.map IndexHtml.title cs = List.map MatchPayload.name ms /\
  List.map IndexHtml.category_text cs = List.map MatchPayload.type_ ms /\
  List.map IndexHtml.source_text cs = List.map MatchPayload.source ms.
Proof.
  induction ms as [|m ms IH]; cbn; intros cs H.
  - injection H as <-. now conjuncts.
  - unfold IndexHtml.card in H.
    destruct (IndexHtml.aliases_line m) as [a|]; [|discriminate].
    destruct (IndexHtml.cards ms) as [cs'|]; [|discriminate].
    injection H as <-. destruct (IH cs' eq_refl) as (H1 & H2 & H3).
    cbn. now rewrite H1, H2, H3.
Qed.

Lemma index_cards_none (ms : list Match) :
  IndexHtml.cards ms = None <->
  exists m, In m ms /\ MatchPayload.aliases m = None.
Proof.
  induction ms as [|m ms IH]; cbn.
  - split; [discriminate | intros (m & [] & _)].
  - unfold IndexHtml.card, IndexHtml.aliases_line.
    destruct (MatchPayload.aliases m) as [l|] eqn:E.
    + destruct (IndexHtml.cards ms) as [cs|].
      * split; [discriminate|]. intros (m' & [<- | Hin] & Hm').
        -- congruence.
        -- destruct IH as [_ IH].
           assert (H : Some cs = None) by (apply IH; eauto).
           discriminate.
      * split; [|reflexivity]. intros _.
        destruct IH as [IH _]. destruct (IH eq_refl) as (m' & Hin & Hm').
        eauto.
    + split; [|reflexivity]. intros _. exists m. auto.
Qed.

(** X17: On [index.html], a success response with a non-zero
    [total_matches] and a [matches] array gives one card per match, in the
    order received, with the match's name, type and source, provided every
    match has an [aliases] array; if a single match lacks it, no card at all
    is left and the error text is shown instead. *)
Theorem X17_index_cards_are_all_or_nothing :
  forall (status : nat) (data : ScreenData) (ms : list Match)
         (p : IndexHtml.Page),
    ok status = true ->
    total_matches data <> 0%Z ->
    matches data = Some ms ->
    ((forall m, In m ms -> MatchPayload.aliases m <> None) ->
     exists cs,
       IndexHtml.resultsDiv
         (IndexHtml.performScreen_settled (HttpResponse status data) p)
       = IndexHtml.Cards cs /\
       List.map IndexHtml.title cs = List.map MatchPayload.name ms /\
       List.map IndexHtml.category_text cs = List.map MatchPayload.type_ ms /\
       List.map IndexHtml.source_text cs = List.map MatchPayload.source ms) /\
    ((exists m, In m ms /\ MatchPayload.aliases m = None) ->
     IndexHtml.resultsDiv
       (IndexHtml.performScreen_settled (HttpResponse status data) p)
     = IndexHtml.ErrorText).
Proof.
  intros status data ms p Hok Htm Hms.
  apply Z.eqb_neq in Htm.
  unfold IndexHtml.performScreen_settled. rewrite Hok, Htm, Hms. cbn.
  split.
  - intros Hall. destruct (IndexHtml.cards ms) as [cs|] eqn:E.
    + exists cs. split; [reflexivity|]. now apply index_cards_fields.
    + apply index_cards_none in E. destruct E as (m & Hin & Hm).
      now destruct (Hall m Hin).
  - intros Hex. apply index_cards_none in Hex. now rewrite Hex.
Qed.

(** X18: The two pages decide differently whether there are matches:
    [index.html] reads [total_matches] and shows its no-matches text when it
    is [0] whatever [matches] holds, and shows an empty area without any text
    when it is not [0] and [matches] is empty; [App.js] never reads
    [total_matches] and holds the [matches] it received. *)
Theorem X18_total_matches_decides_only_on_index :
  forall (status : nat) (data : ScreenData) (p : IndexHtml.Page)
         (st : DashboardApp.State),
    ok status = true ->
    (total_matches data = 0%Z ->
     IndexHtml.resultsDiv
       (IndexHtml.performScreen_settled (HttpResponse status data) p)
     = IndexHtml.NoMatchesText) /\
    (total_matches data <> 0%Z -> matches data = Some [] ->
     IndexHtml.resultsDiv
       (IndexHtml.performScreen_settled (HttpResponse status data) p)
     = IndexHtml.Cards []) /\
    (forall n : Z,
        DashboardApp.handleSearch_settled (HttpResponse status data) st
        = DashboardApp.handleSearch_settled
            (HttpResponse status
               {| total_matches := n; matches := matches data |}) st) /\
    DashboardApp.results
      (DashboardApp.handleSearch_settled (HttpResponse status data) st)
    = DashboardApp.matches_or_empty data.
Proof.
  intros status data p st Hok. conjuncts.
  - intros H0. unfold IndexHtml.performScreen_settled.
    rewrite Hok, H0. reflexivity.
  - intros Hn Hms. apply Z.eqb_neq in Hn.
    unfold IndexHtml.performScreen_settled. rewrite Hok, Hn, Hms.
    reflexivity.
  - intros n. unfold DashboardApp.handleSearch_settled. cbn.
    now rewrite Hok.
  - unfold DashboardApp.handleSearch_settled. cbn. now rewrite Hok.
Qed.

Lemma join_empty_iff (sep : jsstring) (l : list jsstring) :
  sep <> [] ->
  (join sep l = [] <-> l = [] \/ l = [[]]).
Proof.
  intros Hsep. destruct l as [|p [|q rest]]; cbn.
  - split; auto.
  - split.
    + intros ->. now right.
    + intros [H|H]; [discriminate | now injection H].
  - split.
    + intros H. apply app_eq_nil in H as [_ H].
      apply app_eq_nil in H as [H _]. contradiction.
    + intros [H|H]; discriminate.
Qed.

(** X19: On [index.html], the aliases line of a card reads [None] when the
    match's [aliases] array is empty or holds only one empty string, and
    otherwise is the aliases joined by a comma and a space, which is then not
    empty. *)
Theorem X19_index_aliases_line :
  forall (m : Match) (l : list jsstring),
    MatchPayload.aliases m = Some l ->
    (l = [] \/ l = [[]] -> IndexHtml.aliases_line m = Some (lit "None")) /\
    (l <> [] -> l <> [[]] ->
     IndexHtml.aliases_line m = Some (join (lit ", ") l) /\
     join (lit ", ") l <> []).
Proof.
  intros m l Hl. unfold IndexHtml.aliases_line. rewrite Hl.
  assert (Hsep : lit ", " <> []) by discriminate.
  pose proof (join_empty_iff (lit ", ") l Hsep) as [H1 H2].
  split.
  - intros H. now rewrite (H2 H).
  - intros Hn1 Hn2.
    destruct (join (lit ", ") l) as [|c j] eqn:E.
    + destruct (H1 eq_refl); contradiction.
    + split; [reflexivity | discriminate].
Qed.

(** ** The second entry component: searching *)

Section LegacyFlow.

Import Runtime Observe.

Variable NODE_ENV : Env.

Implicit Types (w : LWorld).

Lemma legacy_view w l :
  alive w = true ->
  LegacyApp.results (app w) = Some l ->
  view w
  = Some {| Entry.input_value := LegacyApp.query (app w);
            Entry.button_disabled := false;
            Entry.button_label := lit "Scan";
            Entry.loading_text :=
              if LegacyApp.loading (app w)
              then Some (lit "Scanning...") else None;
            Entry.error_message :=
              SearchResults.shown (LegacyApp.error (app w));
            Entry.no_matches :=
              LegacyApp.searched (app w)
              && negb (LegacyApp.loading (app w)) && negb (nonempty l);
            Entry.search_results := if nonempty l then Some l else None |}.
Proof.
  intros Ha Hl. unfold view. rewrite Ha.
  cbn [Entry.App LegacyApp.component]. unfold LegacyApp.App.
  now rewrite Hl.
Qed.

Lemma legacy_step_submits w l e :
  alive w = true ->
  LegacyApp.results (app w) = Some l ->
  submits e = true ->
  step NODE_ENV w e = step NODE_ENV w (Key (lit "Enter")).
Proof.
  intros Ha Hl He. destruct e; try discriminate.
  - cbn in He. apply eqb_eq in He. now subst key.
  - unfold step. rewrite (legacy_view w l Ha Hl), Ha, eqb_refl. reflexivity.
Qed.

(** X20: In the second entry component, a submitted query that is not
    blank sends one [POST] to [http://localhost:8000/v1/screen], whatever
    [NODE_ENV] is, with the input as typed, and shows the loading line while
    the match list of the previous search stays on screen with its mounted
    [SearchResults] and selection; only the error line is cleared. *)
Theorem X20_legacy_search_keeps_old_results_on_screen :
  forall (w : LWorld) (l : list Match) (e : Event),
    settled w ->
    alive w = true ->
    LegacyApp.results (app w) = Some l ->
    blank (LegacyApp.query (app w)) = false ->
    submits e = true ->
    sent (step NODE_ENV w e)
    = sent w ++
      [(next_request w,
        {| method := POST;
           url := lit "http://localhost:8000/v1/screen";
           entity_name := Some (LegacyApp.query (app w)) |})] /\
    LegacyApp.results (app (step NODE_ENV w e)) = Some l /\
    displayed_matches (step NODE_ENV w e) = displayed_matches w /\
    child (step NODE_ENV w e) = child w /\
    option_map Entry.loading_text (view (step NODE_ENV w e))
    = Some (Some (lit "Scanning...")) /\
    displayed_error (step NODE_ENV w e) = None.
Proof.
  intros w l e Hs Ha Hl Hb He.
  rewrite (legacy_step_submits w l e Ha Hl He).
  rewrite (legacy_enter NODE_ENV w Ha Hb).
  set (w1 := commit _).
  assert (Hr1 : LegacyApp.results (app w1) = Some l)
    by (unfold w1; rewrite commit_app; exact Hl).
  assert (Ha1 : alive w1 = true).
  { unfold w1. rewrite (legacy_commit_alive _ l); [reflexivity | exact Hl]. }
  assert (Hc1 : child w1 = child w).
  { destruct (settled_renders _ w Hs Ha) as (v & Hv & Hn & Hm).
    cbn [Entry.App LegacyApp.component] in Hv. unfold LegacyApp.App in Hv.
    rewrite Hl in Hv. injection Hv as <-. cbn in Hn, Hm.
    unfold w1, commit. cbn [Entry.App LegacyApp.component app].
    unfold LegacyApp.App. cbn [LegacyApp.results]. rewrite Hl.
    cbn [Entry.search_results child].
    destruct (nonempty l).
    - destruct (Hm _ eq_refl) as [c Hc]. now rewrite Hc.
    - cbn. now rewrite (Hn eq_refl). }
  assert (Hld : LegacyApp.loading (app w1) = true)
    by (unfold w1; rewrite commit_app; reflexivity).
  assert (Her : LegacyApp.error (app w1) = None)
    by (unfold w1; rewrite commit_app; reflexivity).
  assert (Hst : sent w1 = sent w ++
      [(next_request w,
        {| method := POST;
           url := lit "http://localhost:8000/v1/screen";
           entity_name := Some (LegacyApp.query (app w)) |})])
    by (unfold w1; rewrite commit_sent; reflexivity).
  clearbody w1. conjuncts; trivial.
  - rewrite (legacy_displayed w1 l Ha1 Hr1).
    now rewrite (legacy_displayed w l Ha Hl).
  - rewrite (legacy_view w1 l Ha1 Hr1). cbn. now rewrite Hld.
  - unfold displayed_error. rewrite (legacy_view w1 l Ha1 Hr1). cbn.
    now rewrite Her.
Qed.

End LegacyFlow.

Lemma dead_page_stays (C : Entry.Component) (NODE_ENV : Env)
      (es : list Runtime.Event) : forall w : Runtime.World C,
  Runtime.alive w = false -> Runtime.run NODE_ENV w es = w.
Proof.
  induction es as [|e es IH]; intros w Hw; [reflexivity|].
  cbn. unfold Runtime.step at 2. rewrite Hw. now apply IH.
Qed.

(** X21: A success response without a [matches] array: [App.js] falls back
    to the empty list and goes on; the second entry component stores the
    missing value, its next render throws on [results.length], and the page
    is gone for good, whatever events follow. *)
Theorem X21_response_without_matches :
  forall (NODE_ENV : Env) (rid : nat) (o : Outcome ScreenData)
         (d : ScreenData),
    axios_await o = Some d ->
    matches d = None ->
    (forall w : DWorld,
        Runtime.alive w = true -> In rid (Runtime.pending_screen w) ->
        Runtime.alive (Runtime.step NODE_ENV w (Runtime.ScreenSettled rid o))
        = true /\
        DashboardApp.results
          (Runtime.app
             (Runtime.step NODE_ENV w (Runtime.ScreenSettled rid o))) = [] /\
        Runtime.displayed_matches
          (Runtime.step NODE_ENV w (Runtime.ScreenSettled rid o)) = None) /\
    (forall w : LWorld,
        Runtime.alive w = true -> In rid (Runtime.pending_screen w) ->
        Runtime.alive (Runtime.step NODE_ENV w (Runtime.ScreenSettled rid o))
        = false /\
        Runtime.view (Runtime.step NODE_ENV w (Runtime.ScreenSettled rid o))
        = None /\
        Runtime.results_section
          (Runtime.step NODE_ENV w (Runtime.ScreenSettled rid o)) = None /\
        forall es,
          Runtime.run NODE_ENV
            (Runtime.step NODE_ENV w (Runtime.ScreenSettled rid o)) es
          = Runtime.step NODE_ENV w (Runtime.ScreenSettled rid o)).
Proof.
  intros env rid o d Ho Hd. split.
  - intros w Ha Hin.
    rewrite (dashboard_screen_settled env w rid o Ha Hin).
    set (w1 := Runtime.commit _).
    assert (Ha1 : Runtime.alive w1 = true)
      by (unfold w1; now rewrite dashboard_commit_alive).
    assert (Hr : DashboardApp.results (Runtime.app w1) = []).
    { unfold w1. rewrite commit_app. cbn [Runtime.app].
      unfold DashboardApp.handleSearch_settled. rewrite Ho. cbn.
      unfold DashboardApp.matches_or_empty. now rewrite Hd. }
    conjuncts; trivial.
    rewrite (dashboard_displayed w1 Ha1), Hr. cbn.
    now rewrite !andb_false_r.
  - intros w Ha Hin.
    rewrite (legacy_screen_settled env w rid o Ha Hin).
    set (w1 := Runtime.commit _).
    assert (Hdead : Runtime.alive w1 = false /\ Runtime.child w1 = None).
    { unfold w1, Runtime.commit.
      cbn [Entry.App LegacyApp.component Runtime.app].
      unfold LegacyApp.App, LegacyApp.handleSearch_settled.
      rewrite Ho. cbn. rewrite Hd. now split. }
    destruct Hdead as [Hal Hch]. clearbody w1. conjuncts.
    + exact Hal.
    + unfold Runtime.view. now rewrite Hal.
    + unfold Runtime.results_section, Runtime.mounted, Runtime.view.
      now rewrite Hal.
    + intros es. now apply dead_page_stays.
Qed.

(** ** Instances of the properties above on sample pages *)

Lemma X1_dashboard_submit_starts_one_search_witness :
  Runtime.sent
    (Runtime.step None
       (Observe.reached DashboardApp.component None
          [Runtime.Change (lit "Acme")])
       Runtime.ClickScan)
  = [(0, {| method := POST;
            url := lit "http://localhost:8000/v1/screen";
            entity_name := Some (lit "Acme") |})].
Proof.
  destruct (X1_dashboard_submit_starts_one_search None
              (Observe.reached DashboardApp.component None
                 [Runtime.Change (lit "Acme")])
              Runtime.ClickScan eq_refl eq_refl eq_refl eq_refl) as [H _].
  exact H.
Defined.

Lemma X2_dashboard_enter_submits_while_loading_witness :
  Runtime.step None
    (Observe.reached DashboardApp.component None Observe.in_flight)
    Runtime.ClickScan
  = Observe.reached DashboardApp.component None Observe.in_flight.
Proof.
  destruct (X2_dashboard_enter_submits_while_loading None
              (Observe.reached DashboardApp.component None Observe.in_flight)
              eq_refl eq_refl eq_refl) as [H _].
  exact H.
Defined.



Lemma X5_dashboard_first_response_ends_loading_witness :
  DashboardApp.loading
    (Runtime.app
       (Runtime.step None
          (Observe.reached DashboardApp.component None
             [Runtime.Change (lit "Acme"); Samples.Enter;
              Runtime.Change (lit "Beta"); Samples.Enter])
          (Runtime.ScreenSettled 0 (Samples.ok200 Samples.acme_data))))
  = false.
Proof.
  destruct (X5_dashboard_first_response_ends_loading None
              (Observe.reached DashboardApp.component None
                 [Runtime.Change (lit "Acme"); Samples.Enter;
                  Runtime.Change (lit "Beta"); Samples.Enter])
              0 1 (Samples.ok200 Samples.acme_data)
              eq_refl (or_intror (or_introl eq_refl)) (or_introl eq_refl)
              (Nat.neq_succ_0 0)) as (H & _).
  exact H.
Defined.

Lemma X10_dashboard_new_search_drops_the_profile_witness :
  Runtime.held_profile
    (Runtime.run None
       (Runtime.step None
          (Observe.reached DashboardApp.component None Observe.profile_loaded)
          Samples.Enter)
       [Runtime.ScreenSettled 2 (Samples.ok200 Samples.beta_data)])
  = None.
Proof.
  destruct (X10_dashboard_new_search_drops_the_profile None
              Observe.profile_loaded Samples.Enter
              [Runtime.ScreenSettled 2 (Samples.ok200 Samples.beta_data)]
              0 [Samples.acme]
              {| SearchResults.selectedEntity := Some Samples.acme_profile;
                 SearchResults.loading := false;
                 SearchResults.error := None |}
              eq_refl eq_refl eq_refl eq_refl) as [_ H].
  exact H.
Defined.

Lemma X11_selection_success_shows_the_profile_witness :
  option_map SearchResults.profile
    (Runtime.results_section
       (Runtime.step None
          (Runtime.step None
             (Observe.reached DashboardApp.component None
                Observe.searched_once)
             (Runtime.ClickCard 0))
          (Runtime.DetailSettled 1 (Samples.ok200 Samples.acme_profile))))
  = Some (Some (EntityProfilePage.EntityProfilePage
                  (Some Samples.acme_profile))).
Proof.
  destruct (X11_selection_success_shows_the_profile DashboardApp.component
              None
              (Observe.reached DashboardApp.component None
                 Observe.searched_once)
              0 [Samples.acme] SearchResults.init 0 Samples.acme
              (Samples.ok200 Samples.acme_profile) Samples.acme_profile
              eq_refl eq_refl eq_refl) as (_ & _ & _ & H & _).
  exact H.
Defined.

Lemma X12_last_detail_response_wins_witness :
  Runtime.held_profile
    (Runtime.run None
       (Runtime.run None
          (Observe.reached DashboardApp.component None Observe.searched_both)
          [Runtime.ClickCard 0; Runtime.ClickCard 1])
       [Runtime.DetailSettled 2 (Samples.ok200 Observe.beta_profile);
        Runtime.DetailSettled 1 (Samples.ok200 Samples.acme_profile)])
  = Some Samples.acme_profile.
Proof.
  destruct (X12_last_detail_response_wins DashboardApp.component None
              (Observe.reached DashboardApp.component None
                 Observe.searched_both)
              0 [Samples.acme; Samples.beta] SearchResults.init
              0 1 Samples.acme Samples.beta
              (Samples.ok200 Samples.acme_profile)
              (Samples.ok200 Observe.beta_profile)
              Samples.acme_profile Observe.beta_profile
              eq_refl eq_refl eq_refl eq_refl eq_refl) as (_ & _ & H & _).
  exact H.
Defined.

Lemma X15_index_posts_a_trimmed_name_witness :
  exists name,
    snd (IndexHtml.performScreen Observe.acme_page)
    = Some {| method := POST; url := lit "/v1/screen";
              entity_name := Some name |} /\
    name = lit "Acme".
Proof.
  destruct (X15_index_posts_a_trimmed_name Observe.acme_page eq_refl)
    as (name & H & Hn & _).
  exists name. split; [now rewrite H | exact Hn].
Defined.

Lemma X17_index_cards_are_all_or_nothing_witness :
  IndexHtml.resultsDiv
    (IndexHtml.performScreen_settled
       (HttpResponse 200
          {| total_matches := 2;
             matches := Some [Samples.acme; Observe.no_aliases] |})
       Observe.acme_page)
  = IndexHtml.ErrorText.
Proof.
  assert (H0 : 2%Z <> 0%Z) by discriminate.
  destruct (X17_index_cards_are_all_or_nothing 200
              {| total_matches := 2;
                 matches := Some [Samples.acme; Observe.no_aliases] |}
              [Samples.acme; Observe.no_aliases] Observe.acme_page
              eq_refl H0 eq_refl) as [_ H].
  apply H. exists Observe.no_aliases. split; [right; left|]; reflexivity.
Defined.

Lemma X18_total_matches_decides_only_on_index_witness :
  IndexHtml.resultsDiv
    (IndexHtml.performScreen_settled
       (HttpResponse 200
          {| total_matches := 0; matches := Some [Samples.acme] |})
       Observe.acme_page)
  = IndexHtml.NoMatchesText.
Proof.
  destruct (X18_total_matches_decides_only_on_index 200
              {| total_matches := 0; matches := Some [Samples.acme] |}
              Observe.acme_page DashboardApp.init eq_refl) as [H _].
  exact (H eq_refl).
Defined.

Lemma X19_index_aliases_line_witness :
  IndexHtml.aliases_line Samples.acme = Some (lit "None").
Proof.
  destruct (X19_index_aliases_line Samples.acme [] eq_refl) as [H _].
  exact (H (or_introl eq_refl)).
Defined.

Lemma X20_legacy_search_keeps_old_results_on_screen_witness :
  Runtime.displayed_matches
    (Runtime.step Samples.production
       (Observe.reached LegacyApp.component Samples.production
          [Runtime.Change (lit "Acme"); Samples.Enter;
           Runtime.ScreenSettled 0 (Samples.ok200 Samples.acme_data);
           Runtime.Change (lit "Beta")])
       Samples.Enter)
  = Some [Samples.acme].
Proof.
  destruct (X20_legacy_search_keeps_old_results_on_screen Samples.production
              (Observe.reached LegacyApp.component Samples.production
                 [Runtime.Change (lit "Acme"); Samples.Enter;
                  Runtime.ScreenSettled 0 (Samples.ok200 Samples.acme_data);
                  Runtime.Change (lit "Beta")])
              [Samples.acme] Samples.Enter
              eq_refl eq_refl eq_refl eq_refl eq_refl) as (_ & _ & H & _).
  exact H.
Defined.

Lemma X21_response_without_matches_witness :
  Runtime.alive
    (Runtime.step None
       (Observe.reached LegacyApp.component None Observe.in_flight)
       (Runtime.ScreenSettled 0 (Samples.ok200 Observe.bare_data)))
  = false.
Proof.
  destruct (X21_response_without_matches None 0
              (Samples.ok200 Observe.bare_data) Observe.bare_data
              eq_refl eq_refl) as [_ H].
  destruct (H (Observe.reached LegacyApp.component None Observe.in_flight)
              eq_refl (or_introl eq_refl)) as [H1 _].
  exact H1.
Defined.

Lemma X7_dashboard_shows_one_section_witness :
  exists v,
    Runtime.view
      (Observe.reached DashboardApp.component None Observe.searched_once)
    = Some v /\
    Observe.shown_sections v = 1.
Proof.
  destruct (X7_dashboard_shows_one_section None Observe.searched_once)
    as (v & Hv & _ & H).
  exists v. split; [exact Hv | exact (H eq_refl)].
Defined.
